(** * Host-creation workflow of [cmd/server-machine/machine.go]

    A shallow embedding of [cmdCreateInner], the function behind the
    [/create] handler, and of the types it touches.  The function talks
    to three kinds of collaborators that live outside the repository:

    - pure helpers of imported packages ([host.ValidateHostName],
      [json.Marshal], [mcndirs.GetMachineCertDir], ...), taken as the
      methods of a type class;
    - the [libmachine.API] and [drivers.Driver] interfaces, whose method
      calls are the visible effects of the workflow.  The workflow is
      embedded as a finite tree of such calls (a free monad); an
      implementation of the interfaces over some world type interprets the
      tree and leaves a trace of the calls that were made, each with the
      answer it got;
    - the Go standard library ([strings.Join], [filepath.Join],
      [filepath.Clean] on a Unix target), modelled as executable functions.
*)

From Stdlib Require Import String Ascii List ZArith Bool Arith Lia.
Import ListNotations.
Local Open Scope list_scope.
Local Open Scope string_scope.

(* ================================================================== *)
(** ** Go standard library: [strings] and [path/filepath] (Unix) *)

Module strings.

(** [strings.Join(elems, sep)] *)
Fixpoint Join (elems : list string) (sep : string) : string :=
  match elems with
  | [] => ""
  | [e] => e
  | e :: rest => e ++ sep ++ Join rest sep
  end.

End strings.

Module filepath.

Definition Separator : ascii := "/"%char.

(** The elements of a path: the maximal runs between separators
    (possibly empty). *)
Fixpoint elements (path : string) : list string :=
  match path with
  | EmptyString => [""]
  | String c rest =>
      if Ascii.eqb c Separator then "" :: elements rest
      else match elements rest with
           | e :: es => String c e :: es
           | [] => [String c ""]
           end
  end.

(** One turn of the loop of [Clean], by path element.  [out] is the
    output buffer as a stack of elements, last written first.  An empty
    element and [.] are skipped; [..] removes the last real element when
    there is one ("can backtrack"), is dropped at the root, and is kept
    in front of a relative path, where only [..] elements can be below
    it; every other element is appended. *)
Definition clean_step (rooted : bool) (out : list string) (e : string)
  : list string :=
  if String.eqb e "" then out
  else if String.eqb e "." then out
  else if String.eqb e ".." then
    match out with
    | top :: below =>
        if negb rooted && String.eqb top ".." then ".." :: out else below
    | [] => if rooted then [] else [".."]
    end
  else e :: out.

(** [filepath.Clean(path)] *)
Definition Clean (path : string) : string :=
  match path with
  | EmptyString => "."
  | String c _ =>
      let rooted := Ascii.eqb c Separator in
      let out := fold_left (clean_step rooted) (elements path) [] in
      let body := strings.Join (rev out) "/" in
      if rooted then String Separator body
      else if String.eqb body "" then "." else body
  end.

(** [filepath.Join(elem...)]: the elements from the first non-empty one
    on, joined by the separator and cleaned; the empty string when every
    element is empty. *)
Fixpoint Join (elem : list string) : string :=
  match elem with
  | [] => ""
  | e :: rest =>
      if String.eqb e "" then Join rest
      else Clean (strings.Join elem "/")
  end.

End filepath.

(* ================================================================== *)
(** ** Imported libmachine packages: the data the workflow builds *)

Module auth.
(** [auth.Options]; the fields the workflow does not set keep their zero
    value and are left out. *)
Record Options : Type := {
  CertDir : string;
  CaCertPath : string;
  CaPrivateKeyPath : string;
  ClientCertPath : string;
  ClientKeyPath : string;
  ServerCertPath : string;
  ServerKeyPath : string;
  StorePath : string;
  ServerCertSANs : list string
}.
End auth.

Module engine.
Record Options : Type := {
  ArbitraryFlags : list string;
  Env : list string;
  InsecureRegistry : list string;
  Labels : list string;
  RegistryMirror : list string;
  StorageDriver : string;
  TLSVerify : bool;
  InstallURL : string
}.
End engine.

Module swarm.
Record Options : Type := { IsSwarm : bool }.
End swarm.

Module drivers.
(** [drivers.BaseDriver], with the two fields the workflow fills in. *)
Record BaseDriver : Type := {
  MachineName : string;
  StorePath : string
}.
End drivers.

Module host.
Record Options : Type := {
  AuthOptions : auth.Options;
  EngineOptions : engine.Options;
  SwarmOptions : swarm.Options
}.

(** [host.Host] over the type [D] of driver handles.  [HostOptions] is a
    pointer in Go: [None] is nil. *)
Record Host (D : Type) : Type := {
  Driver : D;
  DriverName : string;
  HostOptions : option Options;
  Name : string
}.
Arguments Driver {D} _.
Arguments DriverName {D} _.
Arguments HostOptions {D} _.
Arguments Name {D} _.

(** The assignments [h.HostOptions = o] and (through the interface
    value) an update of the driver behind [h.Driver]. *)
Definition set_HostOptions {D} (h : Host D) (o : Options) : Host D :=
  {| Driver := Driver h; DriverName := DriverName h;
     HostOptions := Some o; Name := Name h |}.

Definition set_Driver {D} (h : Host D) (d : D) : Host D :=
  {| Driver := d; DriverName := DriverName h;
     HostOptions := HostOptions h; Name := Name h |}.
End host.

Module mcnerror.
Record ErrHostAlreadyExists : Type := { Name : string }.
End mcnerror.

Module crashreport.
(** [crashreport.CrashError]; [Cause] is the error a collaborator
    returned, of type [E]. *)
Record CrashError (E : Type) : Type := {
  Cause : E;
  Command : string;
  Context : string;
  DriverName : string;
  LogFilePath : string
}.
Arguments Cause {E} _.
Arguments Command {E} _.
Arguments Context {E} _.
Arguments DriverName {E} _.
Arguments LogFilePath {E} _.
End crashreport.

(* ================================================================== *)
(** ** Package main: the request, the flag accessor *)

Record createOptions : Type := {
  Name : string;
  DriverName : string;
  StorePath : string;
  CaCertPath : string;
  CaPrivateKeyPath : string;
  ClientCertPath : string;
  ClientKeyPath : string;
  ServerCertPath : string;
  ServerKeyPath : string;
  ServerCertSANs : list string
}.

(** The interface [DriverOptions]: an interface value is the record of its
    four methods. *)
Module DriverOptions.
Record t : Type := {
  String : string -> string;
  StringSlice : string -> list string;
  Int : string -> Z;
  Bool : string -> bool
}.
End DriverOptions.

(** [type driverOpts struct{}] and its methods. *)
Inductive driverOpts : Type := mk_driverOpts.

Definition driverOpts_String (_ : driverOpts) (key : string) : string := "".
Definition driverOpts_StringSlice (_ : driverOpts) (key : string)
  : list string := [].
Definition driverOpts_Int (_ : driverOpts) (key : string) : Z := 0%Z.
Definition driverOpts_Bool (_ : driverOpts) (key : string) : bool := true.

(** [driverOpts] used at the interface type. *)
Definition driverOpts_iface (o : driverOpts) : DriverOptions.t :=
  {| DriverOptions.String := driverOpts_String o;
     DriverOptions.StringSlice := driverOpts_StringSlice o;
     DriverOptions.Int := driverOpts_Int o;
     DriverOptions.Bool := driverOpts_Bool o |}.

(* ================================================================== *)
(** ** Errors *)

(** Go's [error] interface, seen from its only method: a collaborator's
    error value is of some type [E] that can render itself. *)
Class GoError (E : Type) : Type := Error : E -> string.

(** The error values [cmdCreateInner] can return, by dynamic type.  The
    last constructor is a collaborator's error value handed on as it is. *)
Inductive error (E : Type) : Type :=
| errorString (s : string)
| ErrHostAlreadyExists (e : mcnerror.ErrHostAlreadyExists)
| CrashError (e : crashreport.CrashError E)
| External (e : E).
Arguments errorString {E} s.
Arguments ErrHostAlreadyExists {E} e.
Arguments CrashError {E} e.
Arguments External {E} e.

(** [fmt.Errorf(prefix + "%s", err)]: a fresh error whose text is the
    prefix followed by [err.Error()]. *)
Definition fmt_Errorf {E} `{GoError E} (prefix : string) (err : E)
  : error E :=
  errorString (prefix ++ Error err).

(** The pure helpers of the imported packages. *)
Class Packages (E : Type) : Type := {
  host_ValidateHostName : string -> bool;
  mcnerror_ErrInvalidHostname : E;
  json_Marshal : drivers.BaseDriver -> E + list Byte.byte;
  mcndirs_GetMachineCertDir : string;
  os_Args0 : string
}.

(* ================================================================== *)
(** ** The effects of the workflow *)

Section Effects.

Variables D E : Type.

(** A call on [libmachine.API], on the driver behind [h.Driver], or on
    the runtime, indexed by the type of its answer.  A call that gets
    the host (a pointer in Go) or the driver answers with the host or
    driver as the callee left it. *)
Inductive call : Type -> Type :=
| NewHost (driverName : string) (rawDriver : list Byte.byte)
    : call (E + host.Host D)
| Exists (name : string) : call (E + bool)
| SetConfigFromFlags (d : D) (flags : DriverOptions.t)
    : call (option E * D)
| Create (h : host.Host D) : call (option E * host.Host D)
| Sleep (seconds : Z) : call unit
| GetMachinesDir : call string
| Save (h : host.Host D) : call (option E)
| Printf (msg : string) : call unit.

(** A call together with its answer. *)
Inductive event : Type :=
| EvNewHost (driverName : string) (rawDriver : list Byte.byte)
    (r : E + host.Host D)
| EvExists (name : string) (r : E + bool)
| EvSetConfigFromFlags (d : D) (flags : DriverOptions.t)
    (r : option E * D)
| EvCreate (h : host.Host D) (r : option E * host.Host D)
| EvSleep (seconds : Z)
| EvGetMachinesDir (r : string)
| EvSave (h : host.Host D) (r : option E)
| EvPrintf (msg : string).

Definition observe {X} (c : call X) : X -> event :=
  match c in call X return X -> event with
  | NewHost dn raw => EvNewHost dn raw
  | Exists n => EvExists n
  | SetConfigFromFlags d f => EvSetConfigFromFlags d f
  | Create h => EvCreate h
  | Sleep s => fun _ => EvSleep s
  | GetMachinesDir => EvGetMachinesDir
  | Save h => EvSave h
  | Printf m => fun _ => EvPrintf m
  end.

(** A function body that returns an [error] (or nil): it returns, or
    makes a call and goes on with the answer. *)
Inductive prog : Type :=
| Return (r : option (error E))
| Do {X : Type} (c : call X) (k : X -> prog).

(** An implementation of the interfaces over a world [W]. *)
Definition handler (W : Type) : Type := forall X, call X -> W -> X * W.

Record outcome (W : Type) : Type := {
  result : option (error E);
  final : W;
  trace : list event
}.
Arguments result {W} _.
Arguments final {W} _.
Arguments trace {W} _.

(** Running a body: the calls are answered by the implementation, in
    order; the trace lists them, first call first. *)
Fixpoint run {W} (impl : handler W) (p : prog) (w : W) : outcome W :=
  match p with
  | Return r => {| result := r; final := w; trace := [] |}
  | Do c k =>
      let (x, w1) := impl _ c w in
      let o := run impl (k x) w1 in
      {| result := result o; final := final o;
         trace := observe c x :: trace o |}
  end.

End Effects.

Arguments NewHost {D E} driverName rawDriver.
Arguments Exists {D E} name.
Arguments SetConfigFromFlags {D E} d flags.
Arguments Create {D E} h.
Arguments Sleep {D E} seconds.
Arguments GetMachinesDir {D E}.
Arguments Save {D E} h.
Arguments Printf {D E} msg.
Arguments EvNewHost {D E} driverName rawDriver r.
Arguments EvExists {D E} name r.
Arguments EvSetConfigFromFlags {D E} d flags r.
Arguments EvCreate {D E} h r.
Arguments EvSleep {D E} seconds.
Arguments EvGetMachinesDir {D E} r.
Arguments EvSave {D E} h r.
Arguments EvPrintf {D E} msg.
Arguments observe {D E X} c _.
Arguments Return {D E} r.
Arguments Do {D E X} c k.
Arguments run {D E W} impl p w.
Arguments result {D E W} _.
Arguments final {D E W} _.
Arguments trace {D E W} _.

Declare Scope prog_scope.
Delimit Scope prog_scope with prog.
Notation "x <- c ;; k" := (Do c (fun x => k))
  (at level 100, c at next level, right associativity) : prog_scope.
Notation "c ;;; k" := (Do c (fun _ => k))
  (at level 100, right associativity) : prog_scope.

(* ================================================================== *)
(** ** [cmdCreateInner] *)

Section Workflow.

Context {D E : Type} {goErr : GoError E} {pkgs : Packages E}.

(** The literal assigned to [h.HostOptions] (lines 109-134): the
    options bundle built from the request. *)
Definition newHostOptions (opt : createOptions) : host.Options :=
  {| host.AuthOptions :=
       {| auth.CertDir := mcndirs_GetMachineCertDir;
          auth.CaCertPath := CaCertPath opt;
          auth.CaPrivateKeyPath := CaPrivateKeyPath opt;
          auth.ClientCertPath := ClientCertPath opt;
          auth.ClientKeyPath := ClientKeyPath opt;
          auth.ServerCertPath := ServerCertPath opt;
          auth.ServerKeyPath := ServerKeyPath opt;
          auth.StorePath := StorePath opt;
          auth.ServerCertSANs := ServerCertSANs opt |};
     host.EngineOptions :=
       {| engine.ArbitraryFlags := ["TODO"];
          engine.Env := ["TODO"];
          engine.InsecureRegistry := ["TODO"];
          engine.Labels := ["TODO"];
          engine.RegistryMirror := ["TODO"];
          engine.StorageDriver := "TODO";
          engine.TLSVerify := true;
          engine.InstallURL := "TODO" |};
     host.SwarmOptions := {| swarm.IsSwarm := false |} |}.

(** The [crashreport.CrashError] literal of lines 164-170. *)
Definition crashError (err : E) (h : host.Host D) (vBoxLog : string)
  : error E :=
  CrashError
    {| crashreport.Cause := err;
       crashreport.Command := "Create";
       crashreport.Context := "api.performCreate";
       crashreport.DriverName := host.DriverName h;
       crashreport.LogFilePath := vBoxLog |}.

(** The body of [cmdCreateInner] from line 90 on, for a request [opt]. *)
Definition cmdCreateInnerWith (opt : createOptions) : prog D E :=
  (let validName := host_ValidateHostName (Name opt) in
   if negb validName then
     Return (Some (fmt_Errorf "Error creating machine: "
                     mcnerror_ErrInvalidHostname))
   else
   match json_Marshal {| drivers.MachineName := Name opt;
                         drivers.StorePath := StorePath opt |} with
   | inl err =>
       Return (Some (fmt_Errorf
                       "Error attempting to marshal bare driver data: " err))
   | inr rawDriver =>
   r <- NewHost (DriverName opt) rawDriver ;;
   match r with
   | inl err => Return (Some (fmt_Errorf "Error getting new host: " err))
   | inr h =>
   let h := host.set_HostOptions h (newHostOptions opt) in
   r <- Exists (host.Name h) ;;
   match r with
   | inl err =>
       Return (Some (fmt_Errorf "Error checking if host exists: " err))
   | inr exists_ =>
   if exists_ : bool then
     Return (Some (ErrHostAlreadyExists
                     {| mcnerror.Name := host.Name h |}))
   else
   let driverOpts := mk_driverOpts in
   r <- SetConfigFromFlags (host.Driver h) (driverOpts_iface driverOpts) ;;
   let (err, d) := r : option E * D in
   let h := host.set_Driver h d in
   match err with
   | Some err =>
       Return (Some (fmt_Errorf
         "Error setting machine configuration from flags provided: " err))
   | None =>
   r <- Create h ;;
   let (err, h) := r : option E * host.Host D in
   match err with
   | Some err =>
       Sleep 2 ;;;
       if String.eqb (host.DriverName h) "virtualbox" then
         dir <- GetMachinesDir ;;
         Return (Some (crashError err h
                   (filepath.Join
                      [dir; host.Name h; host.Name h; "Logs"; "VBox.log"])))
       else Return (Some (crashError err h ""))
   | None =>
   err <- Save h ;;
   match err with
   | Some err =>
       Return (Some (fmt_Errorf "Error attempting to save store: " err))
   | None =>
   Printf ("To see how to connect your Docker Client to the Docker Engine running on this virtual machine, run: "
           ++ os_Args0 ++ " env " ++ Name opt) ;;;
   Return None
   end end end end end end)%prog.

(** The request [cmdCreateInner] is written for (lines 80-88). *)
Definition opt0 : createOptions :=
  {| Name := "todoname";
     DriverName := "virtualbox";
     StorePath := "todo";
     CaCertPath := "ca.pem";
     CaPrivateKeyPath := "ca-key.pem";
     ClientCertPath := "cert.pem";
     ClientKeyPath := "key.pem";
     ServerCertPath := "";
     ServerKeyPath := "";
     ServerCertSANs := [] |}.

Definition cmdCreateInner : prog D E := cmdCreateInnerWith opt0.

(** One request served by an implementation [impl] from a world [w]. *)
Definition exec {W} (impl : handler D E W) (opt : createOptions) (w : W)
  : outcome D E W :=
  run impl (cmdCreateInnerWith opt) w.

(** *** Kinds of calls in a trace *)

Definition isNewHost (e : event D E) : bool :=
  match e with EvNewHost _ _ _ => true | _ => false end.
Definition isExists (e : event D E) : bool :=
  match e with EvExists _ _ => true | _ => false end.
Definition isSetConfigFromFlags (e : event D E) : bool :=
  match e with EvSetConfigFromFlags _ _ _ => true | _ => false end.
Definition isCreate (e : event D E) : bool :=
  match e with EvCreate _ _ => true | _ => false end.
Definition isSave (e : event D E) : bool :=
  match e with EvSave _ _ => true | _ => false end.

Definition isSaveCall {X} (c : call D E X) : bool :=
  match c with Save _ => true | _ => false end.

(** A call on the Store ([Exists], [Save]); a call on the driver side
    (the registry's [NewHost], [SetConfigFromFlags], [Create]). *)
Definition isStoreOp (e : event D E) : bool := isExists e || isSave e.
Definition isDriverOp (e : event D E) : bool :=
  isNewHost e || isSetConfigFromFlags e || isCreate e.

(** [Create] answered nil / an error. *)
Definition createOk (e : event D E) : bool :=
  match e with EvCreate _ (None, _) => true | _ => false end.
Definition createFailed (e : event D E) : bool :=
  match e with EvCreate _ (Some _, _) => true | _ => false end.

(** The calls of a trace by name only. *)
Inductive kind : Type :=
| KNewHost | KExists | KSetConfigFromFlags | KCreate | KSleep
| KGetMachinesDir | KSave | KPrintf.

Definition kind_of (e : event D E) : kind :=
  match e with
  | EvNewHost _ _ _ => KNewHost
  | EvExists _ _ => KExists
  | EvSetConfigFromFlags _ _ _ => KSetConfigFromFlags
  | EvCreate _ _ => KCreate
  | EvSleep _ => KSleep
  | EvGetMachinesDir _ => KGetMachinesDir
  | EvSave _ _ => KSave
  | EvPrintf _ => KPrintf
  end.

(** The order of the calls on the path that succeeds, and on the path
    where creation fails for the virtualbox driver. *)
Definition success_path : list kind :=
  [KNewHost; KExists; KSetConfigFromFlags; KCreate; KSave; KPrintf].
Definition crash_path : list kind :=
  [KNewHost; KExists; KSetConfigFromFlags; KCreate; KSleep; KGetMachinesDir].

(** Every [Q]-call of the trace comes after some [P]-call. *)
Definition preceded_by (P Q : event D E -> bool) (t : list (event D E))
  : Prop :=
  forall j e, nth_error t j = Some e -> Q e = true ->
    exists i e', i < j /\ nth_error t i = Some e' /\ P e' = true.

End Workflow.

(* ================================================================== *)
(** ** A scripted implementation of the collaborators

    Errors are strings; the world is a store of saved host names and the
    set of files on disk; the registry reads the machine name back from
    the marshalled base driver; the answers of the fallible calls are
    scripted. *)

Module mock.

#[global] Instance string_GoError : GoError string := fun s => s.

Definition quote : ascii := Ascii.ascii_of_nat 34.

(** The JSON object of a base driver. *)
Definition marshal (b : drivers.BaseDriver) : string :=
  "{" ++ String quote "MachineName" ++ String quote ":"
  ++ String quote (drivers.MachineName b) ++ String quote ","
  ++ String quote "StorePath" ++ String quote ":"
  ++ String quote (drivers.StorePath b) ++ String quote "}".

Fixpoint skip (n : nat) (s : string) : string :=
  match n, s with
  | S n', String _ rest => skip n' rest
  | _, _ => s
  end.

Fixpoint until_quote (s : string) : string :=
  match s with
  | EmptyString => ""
  | String c rest =>
      if Ascii.eqb c quote then "" else String c (until_quote rest)
  end.

(** The machine name of a marshalled base driver: what follows the
    sixteen characters that open the object, up to the closing quote. *)
Definition machineNameOf (rawDriver : list Byte.byte) : string :=
  until_quote (skip 16 (string_of_list_byte rawDriver)).

Definition alnum (c : ascii) : bool :=
  let n := nat_of_ascii c in
  (((48 <=? n) && (n <=? 57)) || ((65 <=? n) && (n <=? 90))
   || ((97 <=? n) && (n <=? 122)))%nat.

Fixpoint all_chars (p : ascii -> bool) (s : string) : bool :=
  match s with
  | EmptyString => true
  | String c rest => p c && all_chars p rest
  end.

(** libmachine's host-name rule: an alphanumeric character, then
    alphanumerics, dashes and dots. *)
Definition ValidateHostName (name : string) : bool :=
  match name with
  | EmptyString => false
  | String c rest =>
      alnum c
      && all_chars (fun c => alnum c || Ascii.eqb c "-" || Ascii.eqb c ".")
           rest
  end.

#[global] Instance packages : Packages string :=
  {| host_ValidateHostName := ValidateHostName;
     mcnerror_ErrInvalidHostname :=
       "Invalid hostname specified. Allowed hostname chars are: 0-9a-zA-Z . -";
     json_Marshal := fun b => inr (list_byte_of_string (marshal b));
     mcndirs_GetMachineCertDir := "/home/user/.docker/machine/certs";
     os_Args0 := "server-machine" |}.

Record world : Type := {
  store : list string;
  files : list string
}.

Definition fileExists (w : world) (path : string) : bool :=
  existsb (String.eqb path) (files w).

Record script : Type := {
  exists_err : option string;
  config_err : option string;
  create_err : option string;
  save_err : option string;
  machinesDir : string
}.

(** The driver handle counts the configurations it was given. *)
Definition impl (sc : script) : handler nat string world :=
  fun X c =>
    match c in call _ _ X return world -> X * world with
    | NewHost dn raw => fun w =>
        (inr {| host.Driver := 0; host.DriverName := dn;
                host.HostOptions := None;
                host.Name := machineNameOf raw |}, w)
    | Exists n => fun w =>
        (match exists_err sc with
         | Some e => inl e
         | None => inr (existsb (String.eqb n) (store w))
         end, w)
    | SetConfigFromFlags d _ => fun w => ((config_err sc, S d), w)
    | Create h => fun w => ((create_err sc, h), w)
    | Sleep _ => fun w => (tt, w)
    | GetMachinesDir => fun w => (machinesDir sc, w)
    | Save h => fun w =>
        match save_err sc with
        | Some e => (Some e, w)
        | None => (None, {| store := host.Name h :: store w;
                            files := files w |})
        end
    | Printf _ => fun w => (tt, w)
    end.

(** The scripts of the scenarios. *)
Definition all_ok : script :=
  {| exists_err := None; config_err := None; create_err := None;
     save_err := None; machinesDir := "/machines" |}.

Definition store_down : script :=
  {| exists_err := Some "open /machines: permission denied";
     config_err := None; create_err := None;
     save_err := None; machinesDir := "/machines" |}.

Definition config_rejected : script :=
  {| exists_err := None; config_err := Some "missing flag";
     create_err := None; save_err := None; machinesDir := "/machines" |}.

Definition create_fails : script :=
  {| exists_err := None; config_err := None;
     create_err := Some "disk full";
     save_err := None; machinesDir := "/machines" |}.

Definition save_fails : script :=
  {| exists_err := None; config_err := None; create_err := None;
     save_err := Some "disk full"; machinesDir := "/machines" |}.

Definition empty : world := {| store := []; files := [] |}.
Definition with_dev1 : world := {| store := ["dev1"]; files := [] |}.

(** Scenario request: name [dev1] on [virtualbox]. *)
Definition dev1 : createOptions :=
  {| Name := "dev1";
     DriverName := "virtualbox";
     StorePath := "/store/dev1";
     CaCertPath := "ca.pem";
     CaPrivateKeyPath := "ca-key.pem";
     ClientCertPath := "cert.pem";
     ClientKeyPath := "key.pem";
     ServerCertPath := "";
     ServerKeyPath := "";
     ServerCertSANs := [] |}.

(** The same request on another driver, and a disk that holds a log file
    at the place where the virtualbox log would be. *)
Definition dev1_on_ec2 : createOptions :=
  {| Name := "dev1";
     DriverName := "amazonec2";
     StorePath := "/store/dev1";
     CaCertPath := "ca.pem";
     CaPrivateKeyPath := "ca-key.pem";
     ClientCertPath := "cert.pem";
     ClientKeyPath := "key.pem";
     ServerCertPath := "";
     ServerKeyPath := "";
     ServerCertSANs := [] |}.

Definition with_log : world :=
  {| store := []; files := ["/machines/dev1/dev1/Logs/VBox.log"] |}.

Definition bad_name : createOptions :=
  {| Name := "-dev 1";
     DriverName := "virtualbox";
     StorePath := "/store/dev1";
     CaCertPath := "ca.pem";
     CaPrivateKeyPath := "ca-key.pem";
     ClientCertPath := "cert.pem";
     ClientKeyPath := "key.pem";
     ServerCertPath := "";
     ServerKeyPath := "";
     ServerCertSANs := [] |}.

End mock.

(* ================================================================== *)
(** ** Contracts of the collaborators, and readings of the spec *)

Section Statements.

Context {D E W : Type} {goErr : GoError E} {pkgs : Packages E}.

(** The registry honours its contract on this trace: the host it answers
    with is bound to the requested driver and carries the machine name of
    the request. *)
Definition registry_binds (opt : createOptions) (t : list (event D E))
  : Prop :=
  forall dn raw h, In (EvNewHost dn raw (inr h)) t ->
    host.Name h = Name opt /\ host.DriverName h = DriverName opt.

(** [Create] wrote through the host pointer to the driver only: name,
    driver name and options are as they were handed in. *)
Definition create_keeps_host (t : list (event D E)) : Prop :=
  forall h e h', In (EvCreate h (e, h')) t ->
    host.Name h' = host.Name h
    /\ host.DriverName h' = host.DriverName h
    /\ host.HostOptions h' = host.HostOptions h.

(** Among the calls of the workflow, only [Save] changes what the store
    records: [records] reads the records off a world. *)
Definition only_save_writes {S : Type} (impl : handler D E W)
    (records : W -> S) : Prop :=
  forall X (c : call D E X) (w : W),
    isSaveCall c = false -> records (snd (impl X c w)) = records w.

(** Reading of the spec: after a failed creation the log path of the
    crash report follows what is on disk, empty when the artifact is
    absent and non-empty when it is there. *)
Definition log_path_follows_disk (fileExists : W -> string -> bool)
    (artifact : string) (impl : handler D E W) (opt : createOptions)
    (w : W) : Prop :=
  let o := exec impl opt w in
  (exists ev, In ev (trace o) /\ createFailed ev = true) ->
  exists ce, result o = Some (CrashError ce)
    /\ crashreport.DriverName ce = DriverName opt
    /\ (fileExists (final o) artifact = false ->
        crashreport.LogFilePath ce = "")
    /\ (fileExists (final o) artifact = true ->
        crashreport.LogFilePath ce <> "").

(** Reading of the spec: the existence check comes before the registry
    is asked for a host. *)
Definition guard_before_registry (impl : handler D E W)
    (opt : createOptions) (w : W) : Prop :=
  preceded_by isExists isNewHost (trace (exec impl opt w)).

(** Reading of the spec: an error of the existence check is itself the
    error of the workflow. *)
Definition store_error_verbatim (impl : handler D E W)
    (opt : createOptions) (w : W) : Prop :=
  forall n e, In (EvExists n (inl e)) (trace (exec impl opt w)) ->
    result (exec impl opt w) = Some (External e).

End Statements.

(* ================================================================== *)
(** ** Go standard library: [regexp], for the patterns of this file

    The fragment of the syntax that is modelled has literal characters,
    [.], a negated class of one character [[^c]] and the star; a pattern
    outside it is refused by [parse].  Patterns and subjects are read
    byte by byte, where Go reads runes: a dot or a class of Go takes a
    whole rune of text outside ASCII.  For the pattern of this file the
    answer is the same, as its class and its dot sit under a star and
    its literals are ASCII.  Matching is by derivatives. *)

Module regexp.

Inductive re : Type :=
| Eps
| Fail
| Lit (c : ascii)
| NotLit (c : ascii)
| AnyNotNL
| Cat (r1 r2 : re)
| Alt (r1 r2 : re)
| Star (r : re).

(** [*syntax.Error] *)
Record Error : Type := {
  Code : string;
  Expr : string
}.

Definition newline : ascii := Ascii.ascii_of_nat 10.

(** The characters that are not literals of the syntax. *)
Definition special (c : ascii) : bool :=
  existsb (Ascii.eqb c)
    ["\"; "."; "+"; "*"; "?"; "("; ")"; "|"; "["; "]"; "{"; "}"; "^";
     "$"]%char.

(** A pattern of the fragment as a concatenation of its pieces, each an
    atom or a starred atom. *)
Fixpoint parse (pattern : string) : option re :=
  match pattern with
  | EmptyString => Some Eps
  | String c rest =>
      if Ascii.eqb c "[" then
        match rest with
        | String c1 (String x (String c2 rest1)) =>
            if Ascii.eqb c1 "^" && Ascii.eqb c2 "]" && negb (special x) then
              match rest1 with
              | String c3 rest2 =>
                  if Ascii.eqb c3 "*"
                  then option_map (Cat (Star (NotLit x))) (parse rest2)
                  else option_map (Cat (NotLit x)) (parse rest1)
              | EmptyString => Some (Cat (NotLit x) Eps)
              end
            else None
        | _ => None
        end
      else
        let atom :=
          if Ascii.eqb c "." then Some AnyNotNL
          else if special c then None else Some (Lit c) in
        match atom with
        | None => None
        | Some a =>
            match rest with
            | String c3 rest2 =>
                if Ascii.eqb c3 "*"
                then option_map (Cat (Star a)) (parse rest2)
                else option_map (Cat a) (parse rest)
            | EmptyString => Some (Cat a Eps)
            end
        end
  end.

(** Does the expression match the empty string? *)
Fixpoint nullable (r : re) : bool :=
  match r with
  | Eps => true
  | Fail => false
  | Lit _ => false
  | NotLit _ => false
  | AnyNotNL => false
  | Cat r1 r2 => nullable r1 && nullable r2
  | Alt r1 r2 => nullable r1 || nullable r2
  | Star _ => true
  end.

(** What is left of the expression after the character [c]. *)
Fixpoint deriv (c : ascii) (r : re) : re :=
  match r with
  | Eps => Fail
  | Fail => Fail
  | Lit a => if Ascii.eqb a c then Eps else Fail
  | NotLit a => if Ascii.eqb a c then Fail else Eps
  | AnyNotNL => if Ascii.eqb c newline then Fail else Eps
  | Cat r1 r2 =>
      if nullable r1 then Alt (Cat (deriv c r1) r2) (deriv c r2)
      else Cat (deriv c r1) r2
  | Alt r1 r2 => Alt (deriv c r1) (deriv c r2)
  | Star r1 => Cat (deriv c r1) (Star r1)
  end.

(** Some prefix of [s] matches. *)
Fixpoint match_prefix (r : re) (s : string) : bool :=
  nullable r
  || match s with
     | EmptyString => false
     | String c rest => match_prefix (deriv c r) rest
     end.

(** Some substring of [s] matches. *)
Fixpoint search (r : re) (s : string) : bool :=
  match_prefix r s
  || match s with
     | EmptyString => false
     | String _ rest => search r rest
     end.

(** [regexp.MatchString(pattern, s)]: the pattern is compiled, and the
    answer is whether [s] contains a match of it. *)
Definition MatchString (pattern : string) (s : string)
  : bool * option Error :=
  match parse pattern with
  | None => (false, Some {| Code := "outside the modelled fragment";
                            Expr := pattern |})
  | Some r => (search r s, None)
  end.

(** The strings an expression matches. *)
Inductive lang : re -> string -> Prop :=
| lang_Eps : lang Eps ""
| lang_Lit c : lang (Lit c) (String c "")
| lang_NotLit a c : a <> c -> lang (NotLit a) (String c "")
| lang_Any c : c <> newline -> lang AnyNotNL (String c "")
| lang_Cat r1 r2 s1 s2 :
    lang r1 s1 -> lang r2 s2 -> lang (Cat r1 r2) (s1 ++ s2)
| lang_AltL r1 r2 s : lang r1 s -> lang (Alt r1 r2) s
| lang_AltR r1 r2 s : lang r2 s -> lang (Alt r1 r2) s
| lang_Star0 r : lang (Star r) ""
| lang_StarS r s1 s2 :
    lang r s1 -> lang (Star r) s2 -> lang (Star r) (s1 ++ s2).

End regexp.

#[global] Instance regexp_Error_GoError : GoError regexp.Error :=
  fun e => "error parsing regexp: " ++ regexp.Code e ++ ": `"
           ++ regexp.Expr e ++ "`".

(* ================================================================== *)
(** ** [validateSwarmDiscovery] *)

Definition validateSwarmDiscovery (discovery : string)
  : option (error regexp.Error) :=
  if String.eqb discovery "" then None
  else
    let (matched, err) := regexp.MatchString "[^:]*://.*" discovery in
    match err with
    | Some err => Some (External err)
    | None =>
        if matched then None
        else Some (errorString
                     ("Swarm Discovery URL was in the wrong format: "
                      ++ discovery))
    end.

(** [s] has [sub] somewhere inside. *)
Definition contains (s sub : string) : Prop :=
  exists before after, s = before ++ sub ++ after.

(* ================================================================== *)
(** ** The handler [create] *)

Section Handler.

Context {D E : Type} {goErr : GoError E} {pkgs : Packages E}.

(** [mcndirs.GetBaseDir()] *)
Variable mcndirs_GetBaseDir : string.

(** The calls of the handler besides those of [cmdCreateInner].
    [NewClient] answers with the [SSHClientType] of the client it builds;
    the client itself is the implementation of the API the run is given.
    The results of [Write] and [Close] are dropped by the code. *)
Inductive hcall : Type -> Type :=
| NewClient (storePath certsDir : string) : hcall string
| SetDefaultClient (clientType : string) : hcall unit
| Write (body : string) : hcall unit
| Close : hcall unit.

Inductive hevent : Type :=
| HvNewClient (storePath certsDir : string) (clientType : string)
| HvSetDefaultClient (clientType : string)
| HvApi (e : event D E)
| HvFatal (err : error E)
| HvWrite (body : string)
| HvClose.

Definition hobserve {X} (c : hcall X) : X -> hevent :=
  match c in hcall X return X -> hevent with
  | NewClient s c => HvNewClient s c
  | SetDefaultClient t => fun _ => HvSetDefaultClient t
  | Write b => fun _ => HvWrite b
  | Close => fun _ => HvClose
  end.

(** A handler body: it returns, dies in [log.Fatal], makes a call,
    defers a call, or runs a function over the API and goes on with the
    error that function returned. *)
Inductive hprog : Type :=
| Done
| Fatal (err : error E)
| Step {X : Type} (c : hcall X) (k : X -> hprog)
| Defer (c : hcall unit) (k : hprog)
| Api (p : prog D E) (k : option (error E) -> hprog).

(** [handlers.create] (lines 40-50). *)
Definition create : hprog :=
  Step (NewClient mcndirs_GetBaseDir mcndirs_GetMachineCertDir)
    (fun api_SSHClientType =>
  Defer Close (
  Step (SetDefaultClient api_SSHClientType) (fun _ =>
  Api cmdCreateInner (fun err =>
  match err with
  | Some err => Fatal err
  | None => Step (Write "ok") (fun _ => Done)
  end)))).

(** How a handler ends: it returns to the server, or the process exits. *)
Inductive status : Type :=
| Returned
| Exited (code : Z).

Record houtcome (W : Type) : Type := {
  hstatus : status;
  hfinal : W;
  htrace : list hevent
}.
Arguments hstatus {W} _.
Arguments hfinal {W} _.
Arguments htrace {W} _.

Definition hhandler (W : Type) : Type := forall X, hcall X -> W -> X * W.

(** The deferred calls, last deferred first, as the function returns. *)
Fixpoint run_deferred {W} (himpl : hhandler W) (deferred : list (hcall unit))
    (w : W) : W * list hevent :=
  match deferred with
  | [] => (w, [])
  | c :: rest =>
      let (x, w1) := himpl _ c w in
      let (w2, t) := run_deferred himpl rest w1 in
      (w2, hobserve c x :: t)
  end.

(** Running a handler.  A return runs the deferred calls.  [log.Fatal]
    prints the error and exits with status 1: the deferred calls do not
    run and nothing after it does. *)
Fixpoint hrun {W} (himpl : hhandler W) (impl : handler D E W) (p : hprog)
    (deferred : list (hcall unit)) (w : W) : houtcome W :=
  match p with
  | Done =>
      let (w1, t) := run_deferred himpl deferred w in
      {| hstatus := Returned; hfinal := w1; htrace := t |}
  | Fatal err =>
      {| hstatus := Exited 1; hfinal := w; htrace := [HvFatal err] |}
  | Step c k =>
      let (x, w1) := himpl _ c w in
      let o := hrun himpl impl (k x) deferred w1 in
      {| hstatus := hstatus o; hfinal := hfinal o;
         htrace := hobserve c x :: htrace o |}
  | Defer c k => hrun himpl impl k (c :: deferred) w
  | Api p k =>
      let o1 := run impl p w in
      let o := hrun himpl impl (k (result o1)) deferred (final o1) in
      {| hstatus := hstatus o; hfinal := hfinal o;
         htrace := map HvApi (trace o1) ++ htrace o |}
  end.

Definition isWrite (e : hevent) : bool :=
  match e with HvWrite _ => true | _ => false end.
Definition isClose (e : hevent) : bool :=
  match e with HvClose => true | _ => false end.

End Handler.

Arguments HvNewClient {D E} storePath certsDir clientType.
Arguments HvSetDefaultClient {D E} clientType.
Arguments HvApi {D E} e.
Arguments HvFatal {D E} err.
Arguments HvWrite {D E} body.
Arguments HvClose {D E}.
Arguments hobserve {D E X} c _.
Arguments Done {D E}.
Arguments Fatal {D E} err.
Arguments Step {D E X} c k.
Arguments Defer {D E} c k.
Arguments Api {D E} p k.
Arguments hstatus {D E W} _.
Arguments hfinal {D E W} _.
Arguments htrace {D E W} _.
Arguments run_deferred {D E W} himpl deferred w.
Arguments hrun {D E W} himpl impl p deferred w.
Arguments isWrite {D E} e.
Arguments isClose {D E} e.

(** One request to [/create], served from the world [w]. *)
Definition serve {D E W : Type} {goErr : GoError E} {pkgs : Packages E}
    (baseDir : string) (himpl : hhandler W) (impl : handler D E W) (w : W)
  : houtcome (D := D) (E := E) W :=
  hrun himpl impl (create baseDir) [] w.

(* ================================================================== *)
(** ** More scripted collaborators *)

Module fixtures.

(** A registry that knows the drivers of [known] only. *)
Definition impl_with_registry (known : list string) (sc : mock.script)
  : handler nat string mock.world :=
  fun X c =>
    match c in call _ _ X return mock.world -> X * mock.world with
    | NewHost dn raw => fun w =>
        if existsb (String.eqb dn) known then mock.impl sc _ (NewHost dn raw) w
        else (inl ("Driver " ++ dn ++ " not found"), w)
    | c' => mock.impl sc _ c'
    end.

(** The packages of [mock], with a marshaller that fails. *)
Definition no_marshal : Packages string :=
  {| host_ValidateHostName := mock.ValidateHostName;
     mcnerror_ErrInvalidHostname :=
       "Invalid hostname specified. Allowed hostname chars are: 0-9a-zA-Z . -";
     json_Marshal := fun _ => inl "json: unsupported value";
     mcndirs_GetMachineCertDir := "/home/user/.docker/machine/certs";
     os_Args0 := "server-machine" |}.

(** The runtime of the handler: the client is of the external SSH type,
    and the world is left alone. *)
Definition himpl : hhandler mock.world :=
  fun X c =>
    match c in hcall X return mock.world -> X * mock.world with
    | NewClient _ _ => fun w => ("external", w)
    | SetDefaultClient _ => fun w => (tt, w)
    | Write _ => fun w => (tt, w)
    | Close => fun w => (tt, w)
    end.

Definition baseDir : string := "/home/user/.docker/machine".

End fixtures.

(* ================================================================== *)
(** ** Proof steps *)

(** Case analysis of a run of [cmdCreateInnerWith] under the
    implementation [impl]: one goal per path through the body. *)
Ltac exec_cases impl :=
  unfold exec, cmdCreateInnerWith;
  repeat first
    [ progress cbn [run negb result final trace observe]
    | match goal with
      | |- context [host_ValidateHostName ?n] =>
          destruct (host_ValidateHostName n) eqn:?
      | |- context [json_Marshal ?b] => destruct (json_Marshal b) eqn:?
      | |- context [impl ?X ?c ?w] => destruct (impl X c w) eqn:?
      | |- context [if ?b then _ else _] => destruct b eqn:?
      | |- context [match ?x with _ => _ end] => destruct x
      end ].

(** Membership in a trace that is written out. *)
Ltac in_trace :=
  repeat match goal with
    | H : False |- _ => destruct H
    | H : In _ [] |- _ => destruct H
    | H : In _ (_ :: _) |- _ => destruct H as [H | H]
    | H : _ \/ _ |- _ => destruct H as [H | H]
    | H : _ /\ _ |- _ => destruct H
    | H : exists _, _ |- _ => destruct H
    | H : @eq (event _ _) _ ?ev |- _ => is_var ev; subst ev
    | H : @eq (event _ _) ?ev _ |- _ => is_var ev; subst ev
    | H : @eq (event _ _) _ _ |- _ =>
        first [ discriminate H | inversion H; clear H ]
    end;
  subst; try discriminate.

(** Positions in a trace that is written out. *)
Ltac nth_cases j H :=
  repeat match type of H with
    | nth_error (_ :: _) _ = _ =>
        destruct j as [| j]; cbn [nth_error] in H;
        [ first [ discriminate H | injection H as H; subst ] | ]
    end;
  try (destruct j; discriminate H).

(** Pick the member of a written-out trace that makes the goal true. *)
Ltac find_in := (left; reflexivity) + (right; find_in).
Ltac pick_event := eexists; split; [ find_in | ]; reflexivity.

(** [filepath.Clean] and [filepath.Join] on the cases of Go's
    documentation and tests. *)
Example Clean_examples :
  filepath.Clean "a/../../b/./c//d/.." = "../b/c"
  /\ filepath.Clean "/../a/b/../.." = "/"
  /\ filepath.Clean "abc/def/" = "abc/def"
  /\ filepath.Clean "a/.." = "."
  /\ filepath.Clean "../../a/../.." = "../../.."
  /\ filepath.Clean "" = ".".
Proof. repeat split. Qed.

Example Join_examples :
  filepath.Join ["a"; "b"; "c"] = "a/b/c"
  /\ filepath.Join ["a"; ""; "b"] = "a/b"
  /\ filepath.Join [""; "a"] = "a"
  /\ filepath.Join ["a/b"; "../../../xyz"] = "../xyz"
  /\ filepath.Join [""; ""] = ""
  /\ filepath.Join ["/machines"; "dev1"; "dev1"; "Logs"; "VBox.log"]
     = "/machines/dev1/dev1/Logs/VBox.log".
Proof. repeat split. Qed.

(** [filepath.Clean] never answers the empty string. *)
Lemma Clean_nonempty (path : string) : filepath.Clean path <> "".
Proof.
  unfold filepath.Clean. destruct path as [| c rest]; [ discriminate | ].
  cbv zeta. destruct (Ascii.eqb c filepath.Separator); [ discriminate | ].
  destruct (String.eqb _ "") eqn:Hb; [ discriminate | ].
  now apply String.eqb_neq in Hb.
Qed.

(** [filepath.Join] is empty only when all its elements are. *)
Lemma Join_nonempty (elem : list string) :
  (exists e, In e elem /\ e <> "") -> filepath.Join elem <> "".
Proof.
  induction elem as [| a rest IH]; intros (e & Hin & Hne).
  - destruct Hin.
  - cbn [filepath.Join]. destruct (String.eqb a "") eqn:Ha.
    + apply String.eqb_eq in Ha. destruct Hin as [-> | Hin].
      * contradiction.
      * apply IH. now exists e.
    + apply Clean_nonempty.
Qed.

(* ================================================================== *)
(** ** The paths of a run *)

Section Paths.

Context {D E W : Type} {goErr : GoError E} {pkgs : Packages E}.
Variable impl : handler D E W.

(** What a failed [Create] leads to, whatever the collaborators do: the
    crash report built from the error and from the host as [Create] left
    it, with the log path decided by the driver name of that host. *)
Lemma create_failure_report (opt : createOptions) (w : W) :
  (exists ev, In ev (trace (exec impl opt w)) /\ createFailed ev = true) ->
  exists h e h',
    In (EvCreate h (Some e, h')) (trace (exec impl opt w))
    /\ (exists dn raw h0, In (EvNewHost dn raw (inr h0))
                            (trace (exec impl opt w))
                          /\ host.Name h = host.Name h0
                          /\ host.DriverName h = host.DriverName h0)
    /\ ((host.DriverName h' = "virtualbox"
         /\ exists dir,
              In (EvGetMachinesDir dir) (trace (exec impl opt w))
              /\ result (exec impl opt w)
                 = Some (crashError e h'
                           (filepath.Join [dir; host.Name h'; host.Name h';
                                           "Logs"; "VBox.log"])))
        \/ (host.DriverName h' <> "virtualbox"
            /\ result (exec impl opt w) = Some (crashError e h' ""))).
Proof.
  exec_cases impl.
  all: intros Hf; in_trace.
  all: do 3 eexists; split; [ find_in | ].
  all: split; [ do 3 eexists; split; [ find_in | split; reflexivity ] | ].
  - left. split; [ now apply String.eqb_eq | ].
    eexists; split; [ find_in | reflexivity ].
  - right. split; [ now apply String.eqb_neq | reflexivity ].
Qed.

(** A run in which no [Create] call succeeded leaves the records of the
    store as they were, when only [Save] writes them. *)
Lemma records_kept {S : Type} (records : W -> S) (opt : createOptions)
    (w : W) :
  only_save_writes impl records ->
  (forall ev, In ev (trace (exec impl opt w)) -> createOk ev = false) ->
  records (final (exec impl opt w)) = records w.
Proof.
  exec_cases impl.
  all: intros Hfr Hno.
  all: try (exfalso;
            match type of Hno with
            | context [EvCreate ?h (None, ?h')] =>
                assert (createOk (EvCreate h (None, h')) = false)
                  by (apply Hno; simpl; tauto)
            end; discriminate).
  all: repeat match goal with
         | Heq : impl ?X ?c ?w0 = (_, _) |- _ =>
             let H := fresh "Hw" in
             pose proof (Hfr X c w0 eq_refl) as H;
             rewrite Heq in H; cbn [snd] in H; clear Heq
         end.
  all: congruence.
Qed.

(** The calls of a run come in the order of the source: a run stops
    somewhere along the path that succeeds, or it is the path of a failed
    creation, with or without the look-up of the machines directory. *)
Lemma call_order (opt : createOptions) (w : W) :
  (exists n, map kind_of (trace (exec impl opt w)) = firstn n success_path)
  \/ (exists n, 5 <= n
              /\ map kind_of (trace (exec impl opt w)) = firstn n crash_path).
Proof.
  exec_cases impl.
  all: cbn [map kind_of].
  all: first
    [ left; first [ exists 0; reflexivity | exists 1; reflexivity
                  | exists 2; reflexivity | exists 3; reflexivity
                  | exists 5; reflexivity | exists 6; reflexivity ]
    | right; first [ exists 5; split; [ lia | reflexivity ]
                   | exists 6; split; [ lia | reflexivity ] ] ].
Qed.

End Paths.

(* ================================================================== *)
(** ** Properties of the workflow *)

Section Properties.

Context {D E W : Type} {goErr : GoError E} {pkgs : Packages E}.
Variable impl : handler D E W.

(** C1.  Save is called if and only if Create answered nil: it is called
    on no path where Create failed or was never reached, and every Save
    call comes after a successful Create.  So, when only Save writes the
    records of the store, a run without a successful Create leaves them
    as they were. *)
Theorem C1_save_iff_create_succeeded (opt : createOptions) (w : W) :
  let o := exec impl opt w in
  let t := trace o in
  ((exists ev, In ev t /\ isSave ev = true)
   <-> (exists ev, In ev t /\ createOk ev = true))
  /\ ((exists ev, In ev t /\ createFailed ev = true) ->
      forall ev, In ev t -> isSave ev = false)
  /\ ((forall ev, In ev t -> isCreate ev = false) ->
      forall ev, In ev t -> isSave ev = false)
  /\ preceded_by createOk isSave t
  /\ (forall (S : Type) (records : W -> S),
        only_save_writes impl records ->
        (forall ev, In ev t -> createOk ev = false) ->
        records (final o) = records w).
Proof.
  intros o t.
  assert (Hrec : forall (S : Type) (records : W -> S),
             only_save_writes impl records ->
             (forall ev, In ev t -> createOk ev = false) ->
             records (final o) = records w)
    by (intros S records; apply records_kept).
  revert Hrec. subst o t. generalize (final (exec impl opt w)) as wf.
  exec_cases impl.
  all: intros wf Hrec.
  all: split; [ split; intros; in_trace; try pick_event | ].
  all: split; [ intros; in_trace; reflexivity | ].
  all: split;
    [ intros Hno ev Hin; in_trace; try reflexivity; exfalso;
      match type of Hno with
      | context [EvCreate ?h ?r] =>
          assert (isCreate (EvCreate h r) = false)
            by (apply Hno; simpl; tauto)
      end; discriminate
    | ].
  all: split; [ | exact Hrec ].
  all: intros j ev Hj Hs; nth_cases j Hj; try discriminate.
  all: exists 3; eexists; repeat split; lia.
Qed.

(** C3.  A request whose name fails validation ends in the
    invalid-host-name error with no call made at all: no Store call, no
    driver call, and the world untouched. *)
Theorem C3_invalid_name_fails_fast (opt : createOptions) (w : W) :
  host_ValidateHostName (Name opt) = false ->
  result (exec impl opt w)
  = Some (errorString ("Error creating machine: "
                       ++ Error mcnerror_ErrInvalidHostname))
  /\ trace (exec impl opt w) = []
  /\ (forall ev, In ev (trace (exec impl opt w)) ->
        isStoreOp ev = false /\ isDriverOp ev = false)
  /\ final (exec impl opt w) = w.
Proof.
  intros Hbad. unfold exec, cmdCreateInnerWith. rewrite Hbad. cbn.
  split; [ reflexivity | ]. split; [ reflexivity | ].
  split; [ intros ev [] | reflexivity ].
Qed.

(** C5.  When SetConfigFromFlags answers an error, the workflow ends in
    the configuration error that carries the driver's message, and
    neither Create nor Save is called. *)
Theorem C5_config_error_stops (opt : createOptions) (w : W) d flags e d' :
  In (EvSetConfigFromFlags d flags (Some e, d')) (trace (exec impl opt w)) ->
  result (exec impl opt w)
  = Some (errorString
            ("Error setting machine configuration from flags provided: "
             ++ Error e))
  /\ forall ev, In ev (trace (exec impl opt w)) ->
       isCreate ev = false /\ isSave ev = false.
Proof.
  exec_cases impl.
  all: intros Hin; in_trace.
  split; [ reflexivity | ]. intros; in_trace; auto.
Qed.

(** C2.  When Create answers nil and leaves the host as it was handed
    in (apart from the driver), Save is called exactly once, with a host
    whose options are those built from the request: the certificate and
    key paths, the store path and the SANs of the request, and the engine
    and swarm options of the builder. *)
Theorem C2_save_once_with_built_options (opt : createOptions) (w : W) :
  let t := trace (exec impl opt w) in
  (exists ev, In ev t /\ createOk ev = true) ->
  create_keeps_host t ->
  exists hs r o,
    filter isSave t = [EvSave hs r]
    /\ host.HostOptions hs = Some o
    /\ o = newHostOptions opt
    /\ auth.CertDir (host.AuthOptions o) = mcndirs_GetMachineCertDir
    /\ auth.CaCertPath (host.AuthOptions o) = CaCertPath opt
    /\ auth.CaPrivateKeyPath (host.AuthOptions o) = CaPrivateKeyPath opt
    /\ auth.ClientCertPath (host.AuthOptions o) = ClientCertPath opt
    /\ auth.ClientKeyPath (host.AuthOptions o) = ClientKeyPath opt
    /\ auth.ServerCertPath (host.AuthOptions o) = ServerCertPath opt
    /\ auth.ServerKeyPath (host.AuthOptions o) = ServerKeyPath opt
    /\ auth.StorePath (host.AuthOptions o) = StorePath opt
    /\ auth.ServerCertSANs (host.AuthOptions o) = ServerCertSANs opt
    /\ engine.TLSVerify (host.EngineOptions o) = true
    /\ swarm.IsSwarm (host.SwarmOptions o) = false.
Proof.
  exec_cases impl.
  all: intros Hok Hkeep; in_trace.
  all: match type of Hkeep with
       | context [EvCreate ?h (?e, ?h')] =>
           destruct (Hkeep h e h') as (_ & _ & Ho); [ simpl; tauto | ]
       end.
  all: do 2 eexists; exists (newHostOptions opt).
  all: split; [ reflexivity | ].
  all: split; [ rewrite Ho; reflexivity | ].
  all: repeat split.
Qed.

(** C4.  When the store answers that the host exists, the workflow ends
    in the host-already-exists error carrying the name of the request
    (the registry having named the host after it), and the driver is
    neither configured nor asked to create. *)
Theorem C4_existing_host_stops (opt : createOptions) (w : W) (n : string) :
  In (EvExists n (inr true)) (trace (exec impl opt w)) ->
  registry_binds opt (trace (exec impl opt w)) ->
  result (exec impl opt w)
  = Some (ErrHostAlreadyExists {| mcnerror.Name := Name opt |})
  /\ n = Name opt
  /\ forall ev, In ev (trace (exec impl opt w)) ->
       isSetConfigFromFlags ev = false /\ isCreate ev = false
       /\ isSave ev = false.
Proof.
  exec_cases impl.
  all: intros Hin Hreg; in_trace.
  match type of Hreg with
  | context [EvNewHost ?dn ?raw (inr ?h)] =>
      destruct (Hreg dn raw h) as [Hn _]; [ simpl; tauto | ]
  end.
  cbn [host.Name host.set_HostOptions]. rewrite Hn.
  split; [ reflexivity | ]. split; [ reflexivity | ].
  intros; in_trace; auto.
Qed.

(** C6, as the code has it.  When Create fails the workflow returns a
    crash report with the error as cause and the driver name of the
    request (the registry having bound the host to it and Create having
    left name and driver name alone).  The log path is decided by the
    driver name alone, whatever is on disk: for "virtualbox" it is the
    non-empty path of VBox.log under the machines directory, for every
    other driver it is empty. *)
Theorem C6_crash_report_by_driver_name (opt : createOptions) (w : W) :
  let o := exec impl opt w in
  (exists ev, In ev (trace o) /\ createFailed ev = true) ->
  registry_binds opt (trace o) ->
  create_keeps_host (trace o) ->
  exists e ce,
    result o = Some (CrashError ce)
    /\ (exists h h', In (EvCreate h (Some e, h')) (trace o))
    /\ crashreport.Cause ce = e
    /\ crashreport.Command ce = "Create"
    /\ crashreport.Context ce = "api.performCreate"
    /\ crashreport.DriverName ce = DriverName opt
    /\ (DriverName opt = "virtualbox" ->
        exists dir,
          In (EvGetMachinesDir dir) (trace o)
          /\ crashreport.LogFilePath ce
             = filepath.Join [dir; Name opt; Name opt; "Logs"; "VBox.log"]
          /\ crashreport.LogFilePath ce <> "")
    /\ (DriverName opt <> "virtualbox" -> crashreport.LogFilePath ce = "").
Proof.
  intros o Hf Hreg Hkeep.
  destruct (create_failure_report impl opt w Hf)
    as (h & e & h' & Hc & (dn & raw & h0 & Hnew & Hn0 & Hd0) & Hres).
  destruct (Hreg _ _ _ Hnew) as [Hn Hd].
  destruct (Hkeep _ _ _ Hc) as (Hn' & Hd' & _).
  assert (Hname : host.Name h' = Name opt) by congruence.
  assert (Hdrv : host.DriverName h' = DriverName opt) by congruence.
  exists e.
  destruct Hres as [(Hvb & dir & Hdir & Hres) | (Hnvb & Hres)].
  - eexists; split; [ exact Hres | ]. cbn [crashreport.Cause
      crashreport.Command crashreport.Context crashreport.DriverName
      crashreport.LogFilePath].
    split; [ now exists h, h' | ]. repeat split; try assumption.
    + intros _. exists dir. rewrite Hname. split; [ exact Hdir | ].
      split; [ reflexivity | ].
      apply Join_nonempty. exists "Logs". split; [ simpl; tauto | discriminate ].
    + intros Hne. congruence.
  - eexists; split; [ exact Hres | ]. cbn [crashreport.Cause
      crashreport.Command crashreport.Context crashreport.DriverName
      crashreport.LogFilePath].
    split; [ now exists h, h' | ]. repeat split; try assumption.
    intros Hvb; congruence.
Qed.

(** C7, as the code has it.  The registry is asked for the host before
    the store is asked whether it exists: every Exists call comes after
    the NewHost call that opens the trace, and asks about the name of the
    host the registry answered with. *)
Theorem C7_registry_before_guard (opt : createOptions) (w : W) :
  let t := trace (exec impl opt w) in
  preceded_by isNewHost isExists t
  /\ forall n r, In (EvExists n r) t ->
       exists raw h,
         nth_error t 0 = Some (EvNewHost (DriverName opt) raw (inr h))
         /\ n = host.Name h.
Proof.
  exec_cases impl.
  all: split; [ intros j ev Hj Hs; nth_cases j Hj; try discriminate
              | intros n r Hin; in_trace ].
  all: try (exists 0; eexists; repeat split; lia).
  all: do 2 eexists; split; reflexivity.
Qed.

(** C8, as the code has it.  When the existence check answers an error,
    the workflow returns a new error whose text is "Error checking if
    host exists: " followed by the text of the store's error; it is not
    the store's error value, and nothing is configured, created or
    saved. *)
Theorem C8_store_error_reworded (opt : createOptions) (w : W) n e :
  In (EvExists n (inl e)) (trace (exec impl opt w)) ->
  result (exec impl opt w)
  = Some (errorString ("Error checking if host exists: " ++ Error e))
  /\ result (exec impl opt w) <> Some (External e)
  /\ forall ev, In ev (trace (exec impl opt w)) ->
       isSetConfigFromFlags ev = false /\ isCreate ev = false
       /\ isSave ev = false.
Proof.
  exec_cases impl.
  all: intros Hin; in_trace.
  split; [ reflexivity | ]. split; [ discriminate | ].
  intros; in_trace; auto.
Qed.

(** C9.  When Create answers nil and Save answers an error, the workflow
    returns the save error, a fresh error whose text starts "Error
    attempting to save store: "; every run in which Create fails returns
    a crash report instead, so the two are never the same error. *)
Theorem C9_persist_failure_distinct (opt : createOptions) (w : W) hs e :
  (exists ev, In ev (trace (exec impl opt w)) /\ createOk ev = true) ->
  In (EvSave hs (Some e)) (trace (exec impl opt w)) ->
  result (exec impl opt w)
  = Some (errorString ("Error attempting to save store: " ++ Error e))
  /\ forall (W' : Type) (impl' : handler D E W') opt' (w' : W'),
       (exists ev, In ev (trace (exec impl' opt' w'))
                   /\ createFailed ev = true) ->
       (exists ce, result (exec impl' opt' w') = Some (CrashError ce))
       /\ result (exec impl' opt' w') <> result (exec impl opt w).
Proof.
  intros Hok Hsave.
  assert (Hres : result (exec impl opt w)
          = Some (errorString ("Error attempting to save store: "
                               ++ Error e))).
  { revert Hok Hsave. exec_cases impl.
    all: intros Hok Hsave; in_trace. all: reflexivity. }
  split; [ exact Hres | ].
  intros W' impl' opt' w' Hf. rewrite Hres.
  destruct (create_failure_report impl' opt' w' Hf)
    as (h & e' & h' & _ & _ & [(_ & dir & _ & Hce) | (_ & Hce)]).
  all: rewrite Hce; split; [ eexists; reflexivity | discriminate ].
Qed.

(** C10.  The flag accessor handed to SetConfigFromFlags is the
    [driverOpts] value, and it answers the same for every key: the empty
    string, the empty list, zero and true. *)
Theorem C10_driver_options_constant (opt : createOptions) (w : W)
    d flags r (key : string) :
  In (EvSetConfigFromFlags d flags r) (trace (exec impl opt w)) ->
  flags = driverOpts_iface mk_driverOpts
  /\ DriverOptions.String flags key = ""
  /\ DriverOptions.StringSlice flags key = []
  /\ DriverOptions.Int flags key = 0%Z
  /\ DriverOptions.Bool flags key = true
  /\ forall o : driverOpts,
       driverOpts_String o key = ""
       /\ driverOpts_StringSlice o key = []
       /\ driverOpts_Int o key = 0%Z
       /\ driverOpts_Bool o key = true.
Proof.
  exec_cases impl.
  all: intros Hin; in_trace.
  all: repeat split.
Qed.

End Properties.

(* ================================================================== *)
(** ** The scenarios of the spec, run on the scripted collaborators *)

(** The body run on the request of the source is [cmdCreateInner]. *)
Example exec_opt0 {D E W} `{GoError E} `{Packages E}
    (impl : handler D E W) (w : W) :
  exec impl opt0 w = run impl cmdCreateInner w.
Proof. reflexivity. Qed.

(** On the scripted collaborators only [Save] writes the store. *)
Example mock_only_save_writes (sc : mock.script) :
  only_save_writes (mock.impl sc) mock.store.
Proof.
  intros X c w Hc. destruct c; try discriminate Hc; reflexivity.
Qed.

(** Scenario A: everything succeeds; the store then holds [dev1]. *)
Example scenario_A :
  let o := exec (mock.impl mock.all_ok) mock.dev1 mock.empty in
  result o = None /\ mock.store (final o) = ["dev1"]
  /\ map isSave (trace o) = [false; false; false; false; true; false].
Proof. repeat split. Qed.

(** Scenario B: the host is already there; only the registry and the
    store were called. *)
Example scenario_B :
  let o := exec (mock.impl mock.all_ok) mock.dev1 mock.with_dev1 in
  result o = Some (ErrHostAlreadyExists {| mcnerror.Name := "dev1" |})
  /\ map isDriverOp (trace o) = [true; false]
  /\ final o = mock.with_dev1.
Proof. repeat split. Qed.

(** Scenario C: creation fails on "disk full". *)
Example scenario_C :
  let o := exec (mock.impl mock.create_fails) mock.dev1 mock.empty in
  result o
  = Some (CrashError
            {| crashreport.Cause := "disk full";
               crashreport.Command := "Create";
               crashreport.Context := "api.performCreate";
               crashreport.DriverName := "virtualbox";
               crashreport.LogFilePath :=
                 "/machines/dev1/dev1/Logs/VBox.log" |})
  /\ mock.store (final o) = [].
Proof. repeat split. Qed.

(** A failed creation on another driver: the log path is empty although
    a file sits where the virtualbox log would be. *)
Example other_driver_no_log_path :
  let o := exec (mock.impl mock.create_fails) mock.dev1_on_ec2
             mock.with_log in
  mock.fileExists (final o) "/machines/dev1/dev1/Logs/VBox.log" = true
  /\ result o
     = Some (CrashError
               {| crashreport.Cause := "disk full";
                  crashreport.Command := "Create";
                  crashreport.Context := "api.performCreate";
                  crashreport.DriverName := "amazonec2";
                  crashreport.LogFilePath := "" |}).
Proof. repeat split. Qed.

(** Scenario D: creation succeeds and saving fails on "disk full". *)
Example scenario_D :
  let o := exec (mock.impl mock.save_fails) mock.dev1 mock.empty in
  result o
  = Some (errorString "Error attempting to save store: disk full")
  /\ mock.store (final o) = [].
Proof. repeat split. Qed.

(* ================================================================== *)
(** ** The properties at concrete runs *)

Lemma C2_witness :
  let t := trace (exec (mock.impl mock.all_ok) mock.dev1 mock.empty) in
  (exists ev, In ev t /\ createOk ev = true)
  /\ create_keeps_host t
  /\ exists hs r o,
       filter isSave t = [EvSave hs r]
       /\ host.HostOptions hs = Some o
       /\ o = newHostOptions mock.dev1
       /\ auth.CertDir (host.AuthOptions o) = mcndirs_GetMachineCertDir
       /\ auth.CaCertPath (host.AuthOptions o) = CaCertPath mock.dev1
       /\ auth.CaPrivateKeyPath (host.AuthOptions o)
          = CaPrivateKeyPath mock.dev1
       /\ auth.ClientCertPath (host.AuthOptions o) = ClientCertPath mock.dev1
       /\ auth.ClientKeyPath (host.AuthOptions o) = ClientKeyPath mock.dev1
       /\ auth.ServerCertPath (host.AuthOptions o) = ServerCertPath mock.dev1
       /\ auth.ServerKeyPath (host.AuthOptions o) = ServerKeyPath mock.dev1
       /\ auth.StorePath (host.AuthOptions o) = StorePath mock.dev1
       /\ auth.ServerCertSANs (host.AuthOptions o) = ServerCertSANs mock.dev1
       /\ engine.TLSVerify (host.EngineOptions o) = true
       /\ swarm.IsSwarm (host.SwarmOptions o) = false.
Proof.
  assert (Hok : exists ev,
             In ev (trace (exec (mock.impl mock.all_ok) mock.dev1 mock.empty))
             /\ createOk ev = true)
    by (unfold exec; simpl; pick_event).
  assert (Hkeep : create_keeps_host
            (trace (exec (mock.impl mock.all_ok) mock.dev1 mock.empty)))
    by (intros h e h' Hin; unfold exec in Hin; simpl in Hin; in_trace;
        repeat split).
  exact (conj Hok (conj Hkeep
           (C2_save_once_with_built_options (mock.impl mock.all_ok)
              mock.dev1 mock.empty Hok Hkeep))).
Defined.

Lemma C3_witness :
  host_ValidateHostName (Name mock.bad_name) = false
  /\ (result (exec (mock.impl mock.all_ok) mock.bad_name mock.empty)
      = Some (errorString ("Error creating machine: "
                           ++ Error mcnerror_ErrInvalidHostname))
      /\ trace (exec (mock.impl mock.all_ok) mock.bad_name mock.empty) = []
      /\ (forall ev,
            In ev (trace (exec (mock.impl mock.all_ok) mock.bad_name
                            mock.empty)) ->
            isStoreOp ev = false /\ isDriverOp ev = false)
      /\ final (exec (mock.impl mock.all_ok) mock.bad_name mock.empty)
         = mock.empty).
Proof.
  split; [ reflexivity | ].
  apply (C3_invalid_name_fails_fast (mock.impl mock.all_ok)
           mock.bad_name mock.empty).
  reflexivity.
Defined.

Lemma C4_witness :
  let o := exec (mock.impl mock.all_ok) mock.dev1 mock.with_dev1 in
  In (EvExists "dev1" (inr true)) (trace o)
  /\ registry_binds mock.dev1 (trace o)
  /\ (result o = Some (ErrHostAlreadyExists {| mcnerror.Name := "dev1" |})
      /\ "dev1" = Name mock.dev1
      /\ forall ev, In ev (trace o) ->
           isSetConfigFromFlags ev = false /\ isCreate ev = false
           /\ isSave ev = false).
Proof.
  assert (Hin : In (EvExists "dev1" (inr true))
            (trace (exec (mock.impl mock.all_ok) mock.dev1 mock.with_dev1)))
    by (unfold exec; simpl; tauto).
  assert (Hreg : registry_binds mock.dev1
            (trace (exec (mock.impl mock.all_ok) mock.dev1 mock.with_dev1)))
    by (intros dn raw h H; unfold exec in H; simpl in H; in_trace;
        split; reflexivity).
  exact (conj Hin (conj Hreg
           (C4_existing_host_stops (mock.impl mock.all_ok) mock.dev1
              mock.with_dev1 "dev1" Hin Hreg))).
Defined.

Lemma C5_witness :
  let o := exec (mock.impl mock.config_rejected) mock.dev1 mock.empty in
  In (EvSetConfigFromFlags 0 (driverOpts_iface mk_driverOpts)
        (Some "missing flag", 1)) (trace o)
  /\ (result o
      = Some (errorString
                ("Error setting machine configuration from flags provided: "
                 ++ Error "missing flag"))
      /\ forall ev, In ev (trace o) ->
           isCreate ev = false /\ isSave ev = false).
Proof.
  assert (Hin : In (EvSetConfigFromFlags 0 (driverOpts_iface mk_driverOpts)
                      (Some "missing flag", 1))
            (trace (exec (mock.impl mock.config_rejected) mock.dev1
                      mock.empty)))
    by (unfold exec; simpl; tauto).
  exact (conj Hin
           (C5_config_error_stops (mock.impl mock.config_rejected) mock.dev1
              mock.empty 0 (driverOpts_iface mk_driverOpts) "missing flag" 1
              Hin)).
Defined.

Lemma C6_witness :
  let o := exec (mock.impl mock.create_fails) mock.dev1 mock.empty in
  (exists ev, In ev (trace o) /\ createFailed ev = true)
  /\ registry_binds mock.dev1 (trace o)
  /\ create_keeps_host (trace o)
  /\ exists e ce,
       result o = Some (CrashError ce)
       /\ (exists h h', In (EvCreate h (Some e, h')) (trace o))
       /\ crashreport.Cause ce = e
       /\ crashreport.Command ce = "Create"
       /\ crashreport.Context ce = "api.performCreate"
       /\ crashreport.DriverName ce = DriverName mock.dev1
       /\ (DriverName mock.dev1 = "virtualbox" ->
           exists dir,
             In (EvGetMachinesDir dir) (trace o)
             /\ crashreport.LogFilePath ce
                = filepath.Join [dir; Name mock.dev1; Name mock.dev1;
                                 "Logs"; "VBox.log"]
             /\ crashreport.LogFilePath ce <> "")
       /\ (DriverName mock.dev1 <> "virtualbox" ->
           crashreport.LogFilePath ce = "").
Proof.
  assert (Hf : exists ev,
             In ev (trace (exec (mock.impl mock.create_fails) mock.dev1
                             mock.empty))
             /\ createFailed ev = true)
    by (unfold exec; simpl; pick_event).
  assert (Hreg : registry_binds mock.dev1
            (trace (exec (mock.impl mock.create_fails) mock.dev1
                      mock.empty)))
    by (intros dn raw h H; unfold exec in H; simpl in H; in_trace;
        split; reflexivity).
  assert (Hkeep : create_keeps_host
            (trace (exec (mock.impl mock.create_fails) mock.dev1
                      mock.empty)))
    by (intros h e h' H; unfold exec in H; simpl in H; in_trace;
        repeat split).
  exact (conj Hf (conj Hreg (conj Hkeep
           (C6_crash_report_by_driver_name (mock.impl mock.create_fails)
              mock.dev1 mock.empty Hf Hreg Hkeep)))).
Defined.

Lemma C8_witness :
  let o := exec (mock.impl mock.store_down) mock.dev1 mock.empty in
  In (EvExists "dev1" (inl "open /machines: permission denied")) (trace o)
  /\ (result o
      = Some (errorString ("Error checking if host exists: "
                           ++ Error "open /machines: permission denied"))
      /\ result o <> Some (External "open /machines: permission denied")
      /\ forall ev, In ev (trace o) ->
           isSetConfigFromFlags ev = false /\ isCreate ev = false
           /\ isSave ev = false).
Proof.
  assert (Hin : In (EvExists "dev1"
                      (inl "open /machines: permission denied"))
            (trace (exec (mock.impl mock.store_down) mock.dev1 mock.empty)))
    by (unfold exec; simpl; tauto).
  exact (conj Hin
           (C8_store_error_reworded (mock.impl mock.store_down) mock.dev1
              mock.empty "dev1" "open /machines: permission denied" Hin)).
Defined.

Lemma C9_witness :
  let o := exec (mock.impl mock.save_fails) mock.dev1 mock.empty in
  (exists ev, In ev (trace o) /\ createOk ev = true)
  /\ (exists hs, In (EvSave hs (Some "disk full")) (trace o))
  /\ result o
     = Some (errorString ("Error attempting to save store: "
                          ++ Error "disk full"))
  /\ (exists ce,
        result (exec (mock.impl mock.create_fails) mock.dev1 mock.empty)
        = Some (CrashError ce))
  /\ result (exec (mock.impl mock.create_fails) mock.dev1 mock.empty)
     <> result o.
Proof.
  assert (Hok : exists ev,
             In ev (trace (exec (mock.impl mock.save_fails) mock.dev1
                             mock.empty))
             /\ createOk ev = true)
    by (unfold exec; simpl; pick_event).
  assert (Hs : exists hs,
             In (EvSave hs (Some "disk full"))
               (trace (exec (mock.impl mock.save_fails) mock.dev1
                         mock.empty)))
    by (unfold exec; simpl; eexists; find_in).
  assert (Hf : exists ev,
             In ev (trace (exec (mock.impl mock.create_fails) mock.dev1
                             mock.empty))
             /\ createFailed ev = true)
    by (unfold exec; simpl; pick_event).
  split; [ exact Hok | ]. split; [ exact Hs | ].
  destruct Hs as [hs Hs].
  destruct (C9_persist_failure_distinct (mock.impl mock.save_fails)
              mock.dev1 mock.empty hs "disk full" Hok Hs) as [Hres Hdist].
  split; [ exact Hres | ].
  exact (Hdist mock.world (mock.impl mock.create_fails) mock.dev1
           mock.empty Hf).
Defined.

Lemma C10_witness :
  let o := exec (mock.impl mock.all_ok) mock.dev1 mock.empty in
  In (EvSetConfigFromFlags 0 (driverOpts_iface mk_driverOpts) (None, 1))
     (trace o)
  /\ DriverOptions.String (driverOpts_iface mk_driverOpts) "virtualbox-memory"
     = ""
  /\ DriverOptions.StringSlice (driverOpts_iface mk_driverOpts)
       "virtualbox-memory" = []
  /\ DriverOptions.Int (driverOpts_iface mk_driverOpts) "virtualbox-memory"
     = 0%Z
  /\ DriverOptions.Bool (driverOpts_iface mk_driverOpts) "virtualbox-memory"
     = true.
Proof.
  assert (Hin : In (EvSetConfigFromFlags 0 (driverOpts_iface mk_driverOpts)
                      (None, 1))
            (trace (exec (mock.impl mock.all_ok) mock.dev1 mock.empty)))
    by (unfold exec; simpl; tauto).
  split; [ exact Hin | ].
  destruct (C10_driver_options_constant (mock.impl mock.all_ok) mock.dev1
              mock.empty 0 (driverOpts_iface mk_driverOpts) (None, 1)
              "virtualbox-memory" Hin) as (_ & H1 & H2 & H3 & H4 & _).
  repeat split; assumption.
Defined.

(* ================================================================== *)
(** ** Where the readings of the spec fail *)

(** C6 as stated fails on the request of the source: Create fails, no
    file is on disk, and the crash report still carries the path of
    VBox.log. *)
Lemma C6_counterexample :
  ~ log_path_follows_disk mock.fileExists
      "/machines/todoname/todoname/Logs/VBox.log"
      (mock.impl mock.create_fails) opt0 mock.empty.
Proof.
  intros H. destruct H as (ce & Hres & _ & Habsent & _).
  - unfold exec; simpl; pick_event.
  - injection Hres as <-. specialize (Habsent eq_refl). discriminate Habsent.
Qed.

(** C7 as stated fails on the request of the source: the first call of
    the run is the registry's NewHost, with no Exists before it. *)
Lemma C7_counterexample :
  ~ guard_before_registry (mock.impl mock.all_ok) opt0 mock.empty.
Proof.
  intros H.
  destruct (H 0 _ eq_refl eq_refl) as (i & _ & Hlt & _).
  inversion Hlt.
Qed.

(** C8 as stated fails on the request of the source: the store's error
    is "open /machines: permission denied" and the workflow returns a
    different error value, with a longer text. *)
Lemma C8_counterexample :
  ~ store_error_verbatim (mock.impl mock.store_down) opt0 mock.empty.
Proof.
  intros H.
  specialize (H "todoname" "open /machines: permission denied").
  unfold exec in H; simpl in H.
  assert (Hres : Some (errorString (E := string)
                   "Error checking if host exists: open /machines: permission denied")
                 = Some (External "open /machines: permission denied"))
    by (apply H; tauto).
  discriminate Hres.
Qed.

(* ================================================================== *)
(** ** Matching by derivatives *)

Lemma append_nil_inv (s1 s2 : string) :
  (s1 ++ s2)%string = "" -> s1 = "" /\ s2 = "".
Proof. destruct s1; simpl; [ auto | discriminate ]. Qed.

Lemma append_assoc (s1 s2 s3 : string) :
  ((s1 ++ s2) ++ s3 = s1 ++ (s2 ++ s3))%string.
Proof. induction s1; simpl; [ reflexivity | now rewrite IHs1 ]. Qed.

Lemma append_nil_r (s : string) : (s ++ "")%string = s.
Proof. induction s; simpl; [ reflexivity | now rewrite IHs ]. Qed.

(** An expression is nullable exactly when it matches the empty string. *)
Lemma nullable_lang (r : regexp.re) :
  regexp.nullable r = true <-> regexp.lang r "".
Proof.
  split.
  - induction r; simpl; intros H; try discriminate H.
    + constructor.
    + apply andb_true_iff in H as [H1 H2].
      change "" with ("" ++ "")%string. constructor; auto.
    + apply orb_true_iff in H as [H | H];
        [ apply regexp.lang_AltL | apply regexp.lang_AltR ]; auto.
    + constructor.
  - intros H. remember "" as s eqn:Hs.
    induction H; simpl; try discriminate Hs; try reflexivity.
    + apply append_nil_inv in Hs as [-> ->].
      rewrite IHlang1, IHlang2 by reflexivity; reflexivity.
    + rewrite IHlang by assumption; reflexivity.
    + rewrite IHlang, orb_true_r by assumption; reflexivity.
Qed.

(** The derivative matches what is left of a match after its first
    character. *)
Lemma deriv_lang (c : ascii) (r : regexp.re) (s : string) :
  regexp.lang (regexp.deriv c r) s <-> regexp.lang r (String c s).
Proof.
  split.
  - revert s. induction r; simpl; intros s H.
    + inversion H.
    + inversion H.
    + destruct (Ascii.eqb c0 c) eqn:Hc; inversion H; subst.
      apply Ascii.eqb_eq in Hc as ->. constructor.
    + destruct (Ascii.eqb c0 c) eqn:Hc; inversion H; subst.
      apply Ascii.eqb_neq in Hc. now constructor.
    + destruct (Ascii.eqb c regexp.newline) eqn:Hc; inversion H; subst.
      apply Ascii.eqb_neq in Hc. now constructor.
    + assert (Hcat : forall t, regexp.lang
                (regexp.Cat (regexp.deriv c r1) r2) t ->
                regexp.lang (regexp.Cat r1 r2) (String c t)).
      { intros t Ht. inversion Ht; subst.
        change (String c (s1 ++ s2)) with (String c s1 ++ s2)%string.
        constructor; auto. }
      destruct (regexp.nullable r1) eqn:Hn; [ | now apply Hcat ].
      inversion H; subst; [ now apply Hcat | ].
      change (String c s) with ("" ++ String c s)%string.
      constructor; [ now apply nullable_lang | auto ].
    + inversion H; subst;
        [ apply regexp.lang_AltL | apply regexp.lang_AltR ]; auto.
    + inversion H; subst.
      change (String c (s1 ++ s2)) with (String c s1 ++ s2)%string.
      constructor; auto.
  - revert s. induction r; simpl; intros s H.
    + inversion H.
    + inversion H.
    + inversion H; subst. rewrite Ascii.eqb_refl. constructor.
    + inversion H; subst.
      destruct (Ascii.eqb c0 c) eqn:Hc;
        [ apply Ascii.eqb_eq in Hc; contradiction | constructor ].
    + inversion H; subst.
      destruct (Ascii.eqb c regexp.newline) eqn:Hc;
        [ apply Ascii.eqb_eq in Hc; contradiction | constructor ].
    + inversion H as [ | | | | ? ? s1 s2 H1 H2 Hr Hs | | | | ]; subst.
      destruct s1 as [| c1 s1]; simpl in Hs.
      * subst s2. apply nullable_lang in H1. rewrite H1.
        apply regexp.lang_AltR. auto.
      * injection Hs as -> <-.
        assert (Hd : regexp.lang (regexp.Cat (regexp.deriv c r1) r2)
                       (s1 ++ s2)) by (constructor; auto).
        destruct (regexp.nullable r1);
          [ now apply regexp.lang_AltL | exact Hd ].
    + inversion H; subst;
        [ apply regexp.lang_AltL | apply regexp.lang_AltR ]; auto.
    + remember (regexp.Star r) as r' eqn:Hr'.
      remember (String c s) as t eqn:Ht.
      revert s Ht.
      induction H as [ | | | | | | | | r0 s1 s2 H1 _ H2 IH2 ];
        intros u Hu; try discriminate Hr'; try discriminate Hu.
      injection Hr' as ->.
      destruct s1 as [| c1 s1]; simpl in Hu.
      * apply IH2; auto.
      * injection Hu as -> <-. constructor; auto.
Qed.

(** [match_prefix] finds a prefix that the expression matches. *)
Lemma match_prefix_lang (r : regexp.re) (s : string) :
  regexp.match_prefix r s = true
  <-> exists p q, s = (p ++ q)%string /\ regexp.lang r p.
Proof.
  revert r. induction s as [| c s IH]; intros r; simpl.
  - rewrite orb_false_r, nullable_lang. split.
    + intros H. now exists "", "".
    + intros (p & q & Hs & Hp). symmetry in Hs.
      apply append_nil_inv in Hs as [-> _]. exact Hp.
  - rewrite orb_true_iff, nullable_lang, IH. split.
    + intros [H | (p & q & -> & Hp)].
      * now exists "", (String c s).
      * exists (String c p), q. split; [ reflexivity | ].
        now apply deriv_lang.
    + intros (p & q & Hs & Hp). destruct p as [| c1 p]; simpl in Hs.
      * now left.
      * injection Hs as <- ->. right. exists p, q.
        split; [ reflexivity | ]. now apply deriv_lang.
Qed.

(** [search] finds a substring that the expression matches. *)
Lemma search_lang (r : regexp.re) (s : string) :
  regexp.search r s = true
  <-> exists a p q, s = (a ++ p ++ q)%string /\ regexp.lang r p.
Proof.
  induction s as [| c s IH]; cbn [regexp.search].
  - rewrite orb_false_r, match_prefix_lang. split.
    + intros (p & q & Hs & Hp). now exists "", p, q.
    + intros (a & p & q & Hs & Hp). symmetry in Hs.
      apply append_nil_inv in Hs as [-> Hs]. simpl in Hs. eauto.
  - rewrite orb_true_iff, match_prefix_lang, IH. split.
    + intros [(p & q & Hs & Hp) | (a & p & q & -> & Hp)].
      * now exists "", p, q.
      * now exists (String c a), p, q.
    + intros (a & p & q & Hs & Hp). destruct a as [| c1 a]; simpl in Hs.
      * left. eauto.
      * injection Hs as <- ->. right. eauto.
Qed.

(** What the pattern of [validateSwarmDiscovery] compiles to. *)
Lemma discovery_pattern :
  regexp.parse "[^:]*://.*"
  = Some (regexp.Cat (regexp.Star (regexp.NotLit ":"))
            (regexp.Cat (regexp.Lit ":")
               (regexp.Cat (regexp.Lit "/")
                  (regexp.Cat (regexp.Lit "/")
                     (regexp.Cat (regexp.Star regexp.AnyNotNL)
                        regexp.Eps))))).
Proof. reflexivity. Qed.

(** A string has a match of the pattern exactly when it has "://"
    inside. *)
Lemma discovery_search (s : string) :
  fst (regexp.MatchString "[^:]*://.*" s) = true <-> contains s "://".
Proof.
  unfold regexp.MatchString. rewrite discovery_pattern. cbn [fst].
  rewrite search_lang. split.
  - intros (a & p & q & -> & Hp).
    inversion Hp as [ | | | | ? ? p0 p1 _ H1 | | | | ]; subst.
    inversion H1 as [ | | | | ? ? p2 p3 Hc1 H2 | | | | ]; subst.
    inversion H2 as [ | | | | ? ? p4 p5 Hc2 H3 | | | | ]; subst.
    inversion H3 as [ | | | | ? ? p6 p7 Hc3 _ | | | | ]; subst.
    inversion Hc1; inversion Hc2; inversion Hc3; subst.
    exists (a ++ p0)%string, (p7 ++ q)%string.
    rewrite !append_assoc. reflexivity.
  - intros (before & after & ->).
    exists before, "://", after. split; [ reflexivity | ].
    change "://" with ("" ++ (":" ++ ("/" ++ ("/" ++ ("" ++ "")))))%string.
    repeat constructor.
Qed.

(* ================================================================== *)
(** ** [validateSwarmDiscovery] *)

Example validateSwarmDiscovery_examples :
  validateSwarmDiscovery "" = None
  /\ validateSwarmDiscovery "consul://10.0.0.1:8500" = None
  /\ validateSwarmDiscovery "://" = None
  /\ validateSwarmDiscovery "a:b://c" = None
  /\ validateSwarmDiscovery "token:1234"
     = Some (errorString
               "Swarm Discovery URL was in the wrong format: token:1234")
  /\ validateSwarmDiscovery "consul:/10.0.0.1"
     = Some (errorString
               "Swarm Discovery URL was in the wrong format: consul:/10.0.0.1").
Proof. repeat split. Qed.

(** X1.  [validateSwarmDiscovery] accepts the empty string and the
    strings that have "://" somewhere inside, and nothing else; what it
    refuses comes back in an error that quotes the input.  The error of
    the regexp package never comes back. *)
Theorem validateSwarmDiscovery_accepts (discovery : string) :
  (validateSwarmDiscovery discovery = None
   <-> discovery = "" \/ contains discovery "://")
  /\ (validateSwarmDiscovery discovery <> None ->
      validateSwarmDiscovery discovery
      = Some (errorString ("Swarm Discovery URL was in the wrong format: "
                           ++ discovery))).
Proof.
  pose proof (discovery_search discovery) as Hs.
  unfold validateSwarmDiscovery.
  destruct (String.eqb discovery "") eqn:He.
  - apply String.eqb_eq in He. split; [ tauto | congruence ].
  - apply String.eqb_neq in He.
    unfold regexp.MatchString in *. rewrite discovery_pattern in *.
    cbn [fst] in Hs.
    destruct (regexp.search _ discovery).
    + split; [ | congruence ]. split; [ intros _; right; tauto | reflexivity ].
    + split; [ | reflexivity ].
      split; [ discriminate | ].
      intros [H | H]; [ contradiction | ].
      apply Hs in H. discriminate H.
Qed.

(* ================================================================== *)
(** ** More on the paths of [cmdCreateInner] *)

Section MorePaths.

Context {D E W : Type} {goErr : GoError E} {pkgs : Packages E}.
Variable impl : handler D E W.

(** X2.  When the base driver cannot be marshalled the workflow returns
    the marshalling error with its prefix and has called nobody: the
    trace is empty and the world is as it was. *)
Theorem marshal_error_stops (opt : createOptions) (w : W) (e : E) :
  host_ValidateHostName (Name opt) = true ->
  json_Marshal {| drivers.MachineName := Name opt;
                  drivers.StorePath := StorePath opt |} = inl e ->
  result (exec impl opt w)
  = Some (errorString ("Error attempting to marshal bare driver data: "
                       ++ Error e))
  /\ trace (exec impl opt w) = []
  /\ final (exec impl opt w) = w.
Proof.
  intros Hv Hm. unfold exec, cmdCreateInnerWith. rewrite Hv, Hm. cbn.
  repeat split.
Qed.

(** X3.  When the registry answers an error the workflow returns it
    behind "Error getting new host: ", and the call on the registry, with
    the driver name of the request, is the only call of the run. *)
Theorem newhost_error_stops (opt : createOptions) (w : W) dn raw (e : E) :
  In (EvNewHost dn raw (inl e)) (trace (exec impl opt w)) ->
  result (exec impl opt w)
  = Some (errorString ("Error getting new host: " ++ Error e))
  /\ trace (exec impl opt w) = [EvNewHost (DriverName opt) raw (inl e)].
Proof.
  exec_cases impl.
  all: intros Hin; in_trace.
  split; reflexivity.
Qed.

(** X4.  The workflow returns nil exactly when Save answered nil; the run
    is then the whole path NewHost, Exists, SetConfigFromFlags, Create,
    Save, Printf, and it ends on the hint that names the program and the
    host of the request. *)
Theorem success_iff_saved (opt : createOptions) (w : W) :
  let o := exec impl opt w in
  (result o = None <-> exists h, In (EvSave h None) (trace o))
  /\ (result o = None ->
      map kind_of (trace o) = success_path
      /\ nth_error (trace o) 5
         = Some (EvPrintf
                   ("To see how to connect your Docker Client to the Docker Engine running on this virtual machine, run: "
                    ++ os_Args0 ++ " env " ++ Name opt))).
Proof.
  exec_cases impl.
  all: split; [ split; [ intros H | intros H; in_trace ] | intros H ].
  all: try discriminate H; try reflexivity.
  - eexists; find_in.
  - split; reflexivity.
  - eexists; find_in.
  - split; reflexivity.
Qed.

(** X5.  No call is made twice, and the calls come in the order of the
    source: a run is a start of the path that succeeds, or the path of a
    failed creation, with or without the look-up of the machines
    directory. *)
Theorem calls_in_source_order (opt : createOptions) (w : W) :
  let t := trace (exec impl opt w) in
  NoDup (map kind_of t)
  /\ ((exists n, map kind_of t = firstn n success_path)
      \/ (exists n, 5 <= n /\ map kind_of t = firstn n crash_path)).
Proof.
  split; [ | apply call_order ].
  exec_cases impl.
  all: cbn [map kind_of].
  all: repeat (constructor; [ simpl; intuition discriminate | ]).
  all: constructor.
Qed.

(** X6.  The host that Create gets is the one the registry answered
    with, for the driver name and the marshalled base driver of the
    request, after the store said it does not exist: same name and
    driver name, the options built from the request, and the driver as
    SetConfigFromFlags left it. *)
Theorem create_gets_configured_host (opt : createOptions) (w : W) h r :
  In (EvCreate h r) (trace (exec impl opt w)) ->
  exists raw h0 d',
    json_Marshal {| drivers.MachineName := Name opt;
                    drivers.StorePath := StorePath opt |} = inr raw
    /\ In (EvNewHost (DriverName opt) raw (inr h0)) (trace (exec impl opt w))
    /\ In (EvExists (host.Name h0) (inr false)) (trace (exec impl opt w))
    /\ In (EvSetConfigFromFlags (host.Driver h0)
             (driverOpts_iface mk_driverOpts) (None, d'))
          (trace (exec impl opt w))
    /\ h = {| host.Driver := d';
              host.DriverName := host.DriverName h0;
              host.HostOptions := Some (newHostOptions opt);
              host.Name := host.Name h0 |}.
Proof.
  exec_cases impl.
  all: intros Hin; in_trace.
  all: do 3 eexists; split; [ reflexivity | ].
  all: split; [ find_in | ].
  all: split; [ find_in | ].
  all: split; [ find_in | reflexivity ].
Qed.

(** X7.  The host that is saved is the host as Create left it. *)
Theorem save_gets_created_host (opt : createOptions) (w : W) hs r :
  In (EvSave hs r) (trace (exec impl opt w)) ->
  exists h, In (EvCreate h (None, hs)) (trace (exec impl opt w)).
Proof.
  exec_cases impl.
  all: intros Hin; in_trace.
  all: eexists; find_in.
Qed.

(** X8.  The workflow sleeps, for two seconds, exactly when Create
    failed, and asks for the machines directory exactly when Create
    failed on a host whose driver name is "virtualbox". *)
Theorem sleep_iff_create_failed (opt : createOptions) (w : W) :
  let t := trace (exec impl opt w) in
  ((exists s, In (EvSleep s) t)
   <-> (exists ev, In ev t /\ createFailed ev = true))
  /\ (forall s, In (EvSleep s) t -> s = 2%Z)
  /\ ((exists dir, In (EvGetMachinesDir dir) t)
      <-> (exists h e h', In (EvCreate h (Some e, h')) t
                          /\ host.DriverName h' = "virtualbox")).
Proof.
  exec_cases impl.
  all: split; [ split; intros H; in_trace | ].
  all: try (eexists; find_in).
  all: try pick_event.
  all: split; [ intros sec H; in_trace; reflexivity | ].
  all: split; intros H; in_trace.
  all: try (do 3 eexists; split; [ find_in | now apply String.eqb_eq ]).
  all: try (eexists; find_in).
  all: match goal with
       | Hn : String.eqb _ _ = false, Hv : _ = "virtualbox" |- _ =>
           apply String.eqb_neq in Hn; contradiction
       end.
Qed.

(** X9.  The error tells the path: two runs, of any requests on any
    implementations, that return the same result have made the same
    calls in the same order. *)
Theorem result_determines_path (opt : createOptions) (w : W)
    (W' : Type) (impl' : handler D E W') (opt' : createOptions) (w' : W') :
  result (exec impl opt w) = result (exec impl' opt' w') ->
  map kind_of (trace (exec impl opt w))
  = map kind_of (trace (exec impl' opt' w')).
Proof.
  exec_cases impl. all: exec_cases impl'.
  all: intros H; try reflexivity; exfalso.
  all: unfold fmt_Errorf, crashError in H; cbn [append] in H.
  all: try discriminate H.
  all: injection H; intros; congruence.
Qed.

End MorePaths.

(* ================================================================== *)
(** ** The handler [create] *)

Section HandlerProperties.

Context {D E W : Type} {goErr : GoError E} {pkgs : Packages E}.
Variable baseDir : string.
Variable himpl : hhandler W.
Variable impl : handler D E W.

(** The workflow returns nil exactly when Save answered nil. *)
Lemma nil_iff_saved (opt : createOptions) (w : W) :
  result (exec impl opt w) = None
  <-> exists h, In (EvSave h None) (trace (exec impl opt w)).
Proof.
  exec_cases impl.
  all: split; [ intros H | intros H; in_trace ].
  all: try discriminate H; try reflexivity.
  all: eexists; find_in.
Qed.

(** A run of the handler: the client is built and made the default SSH
    client, the workflow runs, and then either the error is fatal or the
    body is written and the client closed. *)
Lemma serve_shape (w : W) :
  let r1 := himpl _ (NewClient baseDir mcndirs_GetMachineCertDir) w in
  let r2 := himpl _ (SetDefaultClient (fst r1)) (snd r1) in
  let o1 := run impl cmdCreateInner (snd r2) in
  let o := serve baseDir himpl impl w in
  let opening := [HvNewClient baseDir mcndirs_GetMachineCertDir (fst r1);
                  HvSetDefaultClient (fst r1)] in
  match result o1 with
  | Some err =>
      hstatus o = Exited 1
      /\ htrace o
         = (opening ++ map HvApi (trace o1) ++ [HvFatal err])%list
  | None =>
      hstatus o = Returned
      /\ htrace o
         = (opening ++ map HvApi (trace o1)
            ++ [HvWrite "ok"; HvClose])%list
  end.
Proof.
  unfold serve, create. cbn [hrun].
  destruct (himpl _ (NewClient _ _) w) as [ct w1]. cbn [hrun fst snd].
  destruct (himpl _ (SetDefaultClient ct) w1) as [u w2].
  cbn [hrun fst snd hstatus htrace hobserve].
  destruct (result (run impl cmdCreateInner w2)) as [err |].
  - cbn [hrun hstatus htrace app]. split; reflexivity.
  - cbn [hrun]. destruct (himpl _ (Write "ok") _) as [u1 w3].
    cbn [hrun run_deferred]. destruct (himpl _ Close w3) as [u2 w4].
    cbn [hstatus htrace hobserve app]. split; reflexivity.
Qed.

(** An API call of the handler trace is a call of the workflow. *)
Lemma api_event_of_workflow (t : list (event D E)) (tail : list hevent)
    (e : event D E) a b :
  (forall e', ~ In (HvApi e') tail) ->
  In (HvApi e) (a :: b :: map HvApi t ++ tail)%list ->
  a <> HvApi e -> b <> HvApi e -> In e t.
Proof.
  intros Htail [Ha | [Hb | Hin]] Hna Hnb; try contradiction.
  apply in_app_or in Hin as [Hin | Hin].
  - apply in_map_iff in Hin as (e' & He & Hin). now injection He as ->.
  - now apply Htail in Hin.
Qed.

(** X10.  The handler returns to the server exactly when Save answered
    nil.  It has then written the body "ok" and closed the client after
    it, both once and as its last two steps. *)
Theorem create_returns_iff_saved (w : W) :
  let o := serve baseDir himpl impl w in
  ((exists h, In (HvApi (EvSave h None)) (htrace o))
   <-> hstatus o = Returned)
  /\ (hstatus o = Returned ->
      exists pre,
        htrace o = (pre ++ [HvWrite "ok"; HvClose])%list
        /\ forall ev, In ev pre -> isWrite ev = false /\ isClose ev = false).
Proof.
  intros o. pose proof (serve_shape w) as Hs. cbv zeta in Hs. fold o in Hs.
  set (w2 := snd (himpl _ (SetDefaultClient _) _)) in Hs.
  pose proof (nil_iff_saved opt0 w2) as Hnil.
  change (exec impl opt0 w2) with (run impl cmdCreateInner w2) in Hnil.
  destruct (result (run impl cmdCreateInner w2)) as [err |];
    destruct Hs as [Hst Htr]; rewrite Hst, Htr.
  - split; [ split | discriminate ]; [ | discriminate ].
    intros [h Hin]. exfalso.
    apply api_event_of_workflow in Hin; try discriminate.
    + assert (Hn : Some err = None) by (apply Hnil; now exists h).
      discriminate Hn.
    + intros e' [He | []]; discriminate He.
  - split.
    + split; [ reflexivity | ]. intros _.
      destruct (proj1 Hnil eq_refl) as [h Hin]. exists h.
      apply in_or_app; right. apply in_or_app; left. now apply in_map.
    + intros _. eexists (_ :: _ :: map HvApi _)%list.
      split; [ reflexivity | ].
      intros ev [<- | [<- | Hin]]; [ now split | now split | ].
      apply in_map_iff in Hin as (e' & <- & _). now split.
Qed.

(** X11.  When the workflow did not save, the handler dies in log.Fatal
    on the error [cmdCreateInner] returned, as the last step of its run:
    the process exits with status 1, no body is written and the deferred
    Close does not run. *)
Theorem create_failure_exits (w : W) :
  let r1 := himpl _ (NewClient baseDir mcndirs_GetMachineCertDir) w in
  let r2 := himpl _ (SetDefaultClient (fst r1)) (snd r1) in
  let o1 := run impl cmdCreateInner (snd r2) in
  let o := serve baseDir himpl impl w in
  (forall h, ~ In (HvApi (EvSave h None)) (htrace o)) ->
  hstatus o = Exited 1
  /\ (exists err,
        result o1 = Some err
        /\ htrace o
           = ([HvNewClient baseDir mcndirs_GetMachineCertDir (fst r1);
               HvSetDefaultClient (fst r1)]
              ++ map HvApi (trace o1) ++ [HvFatal err])%list)
  /\ forall ev, In ev (htrace o) -> isWrite ev = false /\ isClose ev = false.
Proof.
  intros r1 r2 o1 o Hno.
  pose proof (serve_shape w) as Hs. cbv zeta in Hs.
  fold r1 r2 o1 o in Hs.
  pose proof (nil_iff_saved opt0 (snd r2)) as Hnil.
  change (exec impl opt0 (snd r2)) with o1 in Hnil.
  destruct (result o1) as [err |] eqn:Hres.
  - destruct Hs as [Hst Htr]. split; [ exact Hst | ].
    split; [ now exists err | ].
    rewrite Htr. cbn [app].
    intros ev [<- | [<- | Hin]]; [ now split | now split | ].
    apply in_app_or in Hin as [Hin | [<- | []]]; [ | now split ].
    apply in_map_iff in Hin as (e' & <- & _). now split.
  - exfalso. destruct Hs as [_ Htr].
    destruct (proj1 Hnil eq_refl) as [h Hin].
    apply (Hno h). rewrite Htr.
    apply in_or_app; right. apply in_or_app; left. now apply in_map.
Qed.

End HandlerProperties.

(* ================================================================== *)
(** ** The further properties at concrete runs *)

Lemma marshal_error_stops_witness :
  let o := exec (pkgs := fixtures.no_marshal) (mock.impl mock.all_ok)
             mock.dev1 mock.empty in
  host_ValidateHostName (Packages := fixtures.no_marshal) (Name mock.dev1)
  = true
  /\ json_Marshal (Packages := fixtures.no_marshal)
       {| drivers.MachineName := Name mock.dev1;
          drivers.StorePath := StorePath mock.dev1 |}
     = inl "json: unsupported value"
  /\ (result o
      = Some (errorString ("Error attempting to marshal bare driver data: "
                           ++ Error "json: unsupported value"))
      /\ trace o = []
      /\ final o = mock.empty).
Proof.
  split; [ reflexivity | ]. split; [ reflexivity | ].
  apply (marshal_error_stops (pkgs := fixtures.no_marshal)
           (mock.impl mock.all_ok) mock.dev1 mock.empty
           "json: unsupported value"); reflexivity.
Defined.

Lemma newhost_error_stops_witness :
  let o := exec (fixtures.impl_with_registry ["virtualbox"] mock.all_ok)
             mock.dev1_on_ec2 mock.empty in
  let raw := list_byte_of_string
               (mock.marshal {| drivers.MachineName := "dev1";
                                drivers.StorePath := "/store/dev1" |}) in
  In (EvNewHost "amazonec2" raw (inl "Driver amazonec2 not found")) (trace o)
  /\ (result o
      = Some (errorString ("Error getting new host: "
                           ++ Error "Driver amazonec2 not found"))
      /\ trace o
         = [EvNewHost (DriverName mock.dev1_on_ec2) raw
              (inl "Driver amazonec2 not found")]).
Proof.
  assert (Hin : In (EvNewHost "amazonec2"
                      (list_byte_of_string
                         (mock.marshal
                            {| drivers.MachineName := "dev1";
                               drivers.StorePath := "/store/dev1" |}))
                      (inl "Driver amazonec2 not found"))
            (trace (exec (fixtures.impl_with_registry ["virtualbox"]
                            mock.all_ok)
                      mock.dev1_on_ec2 mock.empty)))
    by (left; reflexivity).
  exact (conj Hin
           (newhost_error_stops
              (fixtures.impl_with_registry ["virtualbox"] mock.all_ok)
              mock.dev1_on_ec2 mock.empty _ _ _ Hin)).
Defined.

Lemma create_gets_configured_host_witness :
  let t := trace (exec (mock.impl mock.all_ok) mock.dev1 mock.empty) in
  let h := {| host.Driver := 1; host.DriverName := "virtualbox";
              host.HostOptions := Some (newHostOptions mock.dev1);
              host.Name := "dev1" |} in
  In (EvCreate h (None, h)) t
  /\ exists raw h0 d',
       json_Marshal {| drivers.MachineName := Name mock.dev1;
                       drivers.StorePath := StorePath mock.dev1 |} = inr raw
       /\ In (EvNewHost (DriverName mock.dev1) raw (inr h0)) t
       /\ In (EvExists (host.Name h0) (inr false)) t
       /\ In (EvSetConfigFromFlags (host.Driver h0)
                (driverOpts_iface mk_driverOpts) (None, d')) t
       /\ h = {| host.Driver := d';
                 host.DriverName := host.DriverName h0;
                 host.HostOptions := Some (newHostOptions mock.dev1);
                 host.Name := host.Name h0 |}.
Proof.
  assert (Hin : In (EvCreate
                      {| host.Driver := 1; host.DriverName := "virtualbox";
                         host.HostOptions := Some (newHostOptions mock.dev1);
                         host.Name := "dev1" |}
                      (None,
                       {| host.Driver := 1; host.DriverName := "virtualbox";
                          host.HostOptions :=
                            Some (newHostOptions mock.dev1);
                          host.Name := "dev1" |}))
            (trace (exec (mock.impl mock.all_ok) mock.dev1 mock.empty)))
    by (unfold exec; simpl; tauto).
  exact (conj Hin
           (create_gets_configured_host (mock.impl mock.all_ok) mock.dev1
              mock.empty _ _ Hin)).
Defined.

Lemma save_gets_created_host_witness :
  let t := trace (exec (mock.impl mock.all_ok) mock.dev1 mock.empty) in
  let hs := {| host.Driver := 1; host.DriverName := "virtualbox";
               host.HostOptions := Some (newHostOptions mock.dev1);
               host.Name := "dev1" |} in
  In (EvSave hs None) t
  /\ exists h, In (EvCreate h (None, hs)) t.
Proof.
  assert (Hin : In (EvSave
                      {| host.Driver := 1; host.DriverName := "virtualbox";
                         host.HostOptions := Some (newHostOptions mock.dev1);
                         host.Name := "dev1" |} None)
            (trace (exec (mock.impl mock.all_ok) mock.dev1 mock.empty)))
    by (unfold exec; simpl; tauto).
  exact (conj Hin
           (save_gets_created_host (mock.impl mock.all_ok) mock.dev1
              mock.empty _ _ Hin)).
Defined.

(** Two requests, for different drivers, that end in the same error. *)
Lemma result_determines_path_witness :
  let o := exec (mock.impl mock.all_ok) mock.dev1 mock.with_dev1 in
  let o' := exec (mock.impl mock.store_down) mock.dev1_on_ec2 mock.empty in
  let o'' := exec (mock.impl mock.all_ok) mock.dev1_on_ec2 mock.with_dev1 in
  result o <> result o'
  /\ result o = result o''
  /\ map kind_of (trace o) = map kind_of (trace o'').
Proof.
  split; [ discriminate | ].
  assert (Heq : result (exec (mock.impl mock.all_ok) mock.dev1
                          mock.with_dev1)
                = result (exec (mock.impl mock.all_ok) mock.dev1_on_ec2
                            mock.with_dev1))
    by reflexivity.
  exact (conj Heq
           (result_determines_path (mock.impl mock.all_ok) mock.dev1
              mock.with_dev1 mock.world (mock.impl mock.all_ok)
              mock.dev1_on_ec2 mock.with_dev1 Heq)).
Defined.

Lemma create_failure_exits_witness :
  let r1 := fixtures.himpl _
              (NewClient fixtures.baseDir mcndirs_GetMachineCertDir)
              mock.empty in
  let r2 := fixtures.himpl _ (SetDefaultClient (fst r1)) (snd r1) in
  let o1 := run (mock.impl mock.create_fails) cmdCreateInner (snd r2) in
  let o := serve fixtures.baseDir fixtures.himpl
             (mock.impl mock.create_fails) mock.empty in
  (forall h, ~ In (HvApi (EvSave h None)) (htrace o))
  /\ hstatus o = Exited 1
  /\ (exists err,
        result o1 = Some err
        /\ htrace o
           = ([HvNewClient fixtures.baseDir mcndirs_GetMachineCertDir
                 (fst r1);
               HvSetDefaultClient (fst r1)]
              ++ map HvApi (trace o1) ++ [HvFatal err])%list)
  /\ forall ev, In ev (htrace o) -> isWrite ev = false /\ isClose ev = false.
Proof.
  assert (Hno : forall h,
             ~ In (HvApi (EvSave h None))
                 (htrace (serve fixtures.baseDir fixtures.himpl
                            (mock.impl mock.create_fails) mock.empty))).
  { intros h Hin. unfold serve in Hin. simpl in Hin.
    repeat (destruct Hin as [Hin | Hin]; [ discriminate Hin | ]).
    exact Hin. }
  exact (conj Hno
           (create_failure_exits fixtures.baseDir fixtures.himpl
              (mock.impl mock.create_fails) mock.empty Hno)).
Defined.
